(** * cronitor-cli 1.6.0: heartbeat delivery, notification encoding and
      timezone resolution ([cmd/root.go])

    A shallow embedding of [sendPing], [sendApiRequest], [apiUrl],
    [effectiveHostname], [truncateString], [formatStamp], [log] and
    [timezoneLocationName], followed by the properties of the delivery
    engine, the notification encoder, the metadata resolver and the
    provisioning client.

    Go strings are byte strings: they are modelled by [string], whose
    characters are the 256 values of [ascii].  Go's [int] and HTTP status
    codes are modelled by [Z] (no arithmetic is performed on them that could
    wrap).  A [float64] is Rocq's primitive binary64 [float].  A Go panic is
    the [Panic] result; side effects are recorded as a trace of events. *)

From Stdlib Require Import ZArith NArith List String Ascii Bool Lia.
From Stdlib Require Import DecimalString DecimalPos DecimalN.
From Stdlib Require Import Floats.PrimFloat Floats.SpecFloat Floats.FloatOps.
Import ListNotations.

Local Open Scope string_scope.
Local Open Scope Z_scope.

(* ===================================================================== *)
(** * Results and traces *)
(* ===================================================================== *)

(** The outcome of running Go code: a value, or a run-time panic. *)
Inductive Res (A : Type) : Type :=
| Ret (a : A)
| Panic (why : string).
Arguments Ret {A} a.
Arguments Panic {A} why.

(** A computation that emits events of type [E]: its outcome and the
    events emitted, oldest first.  A panic keeps the events emitted before
    it. *)
Definition M (E A : Type) : Type := (Res A * list E)%type.

Definition ret {E A} (a : A) : M E A := (Ret a, []).

Definition bind {E A B} (m : M E A) (k : A -> M E B) : M E B :=
  match m with
  | (Ret a, t) => let (r, t') := k a in (r, (t ++ t')%list)
  | (Panic why, t) => (Panic why, t)
  end.

Definition emit {E} (e : E) : M E unit := (Ret tt, [e]).

Definition lift {E A} (r : Res A) : M E A := (r, []).

Declare Scope go_scope.
Delimit Scope go_scope with go.
Notation "x <- m ;; k" := (bind m (fun x => k))
  (at level 61, m at next level, right associativity) : go_scope.
Notation "m ;;; k" := (bind m (fun _ => k))
  (at level 61, right associativity) : go_scope.

(* ===================================================================== *)
(** * Go strings *)
(* ===================================================================== *)

Module GoString.

(** [len(s)] *)
Definition len (s : string) : Z := Z.of_nat (String.length s).

(** [s[:hi]]: panics when [hi] is out of range. *)
Definition sliceTo (s : string) (hi : Z) : Res string :=
  if (hi <? 0) || (len s <? hi)
  then Panic "slice bounds out of range"
  else Ret (substring 0 (Z.to_nat hi) s).

(** [l[lo:]] on a slice: panics when [lo] is out of range. *)
Definition sliceFrom {A} (l : list A) (lo : Z) : Res (list A) :=
  if (lo <? 0) || (Z.of_nat (List.length l) <? lo)
  then Panic "slice bounds out of range"
  else Ret (skipn (Z.to_nat lo) l).

(** [fmt.Sprintf("%d", z)] *)
Definition itoa (z : Z) : string := NilZero.string_of_int (Z.to_int z).

Definition byte (c : ascii) : N := N_of_ascii c.

Definition isDigit (c : ascii) : bool :=
  ((48 <=? byte c) && (byte c <=? 57))%N.

Definition isAlnum (c : ascii) : bool :=
  (isDigit c
   || ((65 <=? byte c) && (byte c <=? 90))
   || ((97 <=? byte c) && (byte c <=? 122)))%N.

Fixpoint allDigits (s : string) : bool :=
  match s with
  | EmptyString => true
  | String c r => isDigit c && allDigits r
  end.

(** [strings.Split(s, sep)] for a one-byte separator.  The result is never
    empty: [Split("", "/")] is the one-element slice holding [""]. *)
Fixpoint Split (s : string) (sep : ascii) : list string :=
  match s with
  | EmptyString => [EmptyString]
  | String c r =>
      if Ascii.eqb c sep then EmptyString :: Split r sep
      else match Split r sep with
           | h :: t => String c h :: t
           | [] => [String c EmptyString]
           end
  end.

(** [strings.Join(parts, sep)] *)
Definition Join (parts : list string) (sep : string) : string :=
  String.concat sep parts.

(** [strings.Replace(s, old, new, -1)] for a non-empty [old]: every
    non-overlapping occurrence, leftmost first.  [skip] counts the bytes of
    an occurrence already replaced that are still to be passed over. *)
Fixpoint replaceFrom (skip : nat) (old new s : string) : string :=
  match s with
  | EmptyString => EmptyString
  | String c r =>
      match skip with
      | S k => replaceFrom k old new r
      | O =>
          if prefix old s
          then new ++ replaceFrom (String.length old - 1) old new r
          else String c (replaceFrom O old new r)
      end
  end.

Definition Replace (s old new : string) : string := replaceFrom O old new s.

End GoString.

(* ===================================================================== *)
(** * net/url: query escaping *)
(* ===================================================================== *)

Module Url.
Import GoString.

(** [shouldEscape(c, encodeQueryComponent)]: everything but the unreserved
    bytes (letters, digits, [-], [_], [.], [~]) is escaped. *)
Definition shouldEscape (c : ascii) : bool :=
  negb (isAlnum c
        || Ascii.eqb c "-" || Ascii.eqb c "_"
        || Ascii.eqb c "." || Ascii.eqb c "~").

(** One digit of ["0123456789ABCDEF"]. *)
Definition upperhex (n : N) : ascii :=
  if (n <? 10)%N then ascii_of_N (48 + n) else ascii_of_N (55 + n).

(** [url.QueryEscape]: a space becomes [+], any other escaped byte becomes
    [%XX]. *)
Fixpoint QueryEscape (s : string) : string :=
  match s with
  | EmptyString => EmptyString
  | String c r =>
      if Ascii.eqb c " " then String "+" (QueryEscape r)
      else if shouldEscape c
           then String "%" (String (upperhex (byte c / 16))
                              (String (upperhex (byte c mod 16)) (QueryEscape r)))
           else String c (QueryEscape r)
  end.

(** [stringContainsCTLByte]: [url.Parse], and with it [http.NewRequest],
    rejects a URL that holds an ASCII control byte. *)
Fixpoint stringContainsCTLByte (s : string) : bool :=
  match s with
  | EmptyString => false
  | String c r =>
      ((byte c <? 32) || (byte c =? 127))%N || stringContainsCTLByte r
  end.

End Url.

(* ===================================================================== *)
(** * strconv.FormatFloat(x, 'f', prec, 64) *)
(* ===================================================================== *)

Module Strconv.
Import GoString.

(** The decimal digit [n mod 10] as a byte. *)
Definition digit (n : N) : ascii := ascii_of_N (48 + n mod 10).

(** The [prec] low decimal digits of [r], most significant first, with
    leading zeros. *)
Fixpoint fracDigits (prec : nat) (r : N) : string :=
  match prec with
  | O => EmptyString
  | S k => fracDigits k (r / 10) ++ String (digit r) EmptyString
  end.

(** [m * 2^e * 10^prec] rounded to the nearest integer, ties to even: the
    rounding [strconv] applies to the exact decimal expansion of the
    binary value. *)
Definition scaledRound (m : positive) (e : Z) (prec : nat) : N :=
  let num := (Npos m * 10 ^ N.of_nat prec)%N in
  match e with
  | Z0 => num
  | Zpos p => (num * 2 ^ Npos p)%N
  | Zneg p =>
      let den := (2 ^ Npos p)%N in
      let q := (num / den)%N in
      let r := (num mod den)%N in
      match (2 * r ?= den)%N with
      | Lt => q
      | Gt => (q + 1)%N
      | Eq => if N.even q then q else (q + 1)%N
      end
  end.

(** [%f] layout of the scaled integer [n = round(|x| * 10^prec)]. *)
Definition fmtF (neg : bool) (n : N) (prec : nat) : string :=
  let scale := (10 ^ N.of_nat prec)%N in
  (if neg then "-" else "")
  ++ NilZero.string_of_uint (N.to_uint (n / scale))
  ++ match prec with
     | O => ""
     | S _ => String "." (fracDigits prec (n mod scale))
     end.

Definition FormatFloat_f (x : float) (prec : nat) : string :=
  match Prim2SF x with
  | S754_nan => "NaN"
  | S754_infinity false => "+Inf"
  | S754_infinity true => "-Inf"
  | S754_zero s => fmtF s 0 prec
  | S754_finite s m e => fmtF s (scaledRound m e prec) prec
  end.

End Strconv.

(* ===================================================================== *)
(** * Helpers of cmd/root.go *)
(* ===================================================================== *)

Import GoString.

(** [func truncateString(s string, length int) string] *)
Definition truncateString (s : string) (length : Z) : Res string :=
  if len s <=? length then Ret s
  else sliceTo s length.

(** [func formatStamp(timestamp float64) string] *)
Definition formatStamp (timestamp : float) : string :=
  Strconv.FormatFloat_f timestamp 3.


(* ===================================================================== *)
(** * unicode/utf8 and the regular expression of the timezone resolver *)
(* ===================================================================== *)

Module Utf8.

Definition between (lo hi : N) (c : ascii) : bool :=
  ((lo <=? byte c) && (byte c <=? hi))%N.

(** A continuation byte, [0x80..0xBF]. *)
Definition cont (c : ascii) : bool := between 128 191 c.

(** The width in bytes of the first rune of [s], as [utf8.DecodeRuneInString]
    computes it: an invalid or truncated encoding is one byte wide; the
    second byte of a three- or four-byte encoding has a range that depends
    on the first ([acceptRanges]). *)
Definition runeWidth (s : string) : nat :=
  match s with
  | EmptyString => 0
  | String c0 r =>
      let b := byte c0 in
      if (b <? 128)%N then 1
      else if between 194 223 c0 then
        match r with
        | String c1 _ => if cont c1 then 2 else 1
        | _ => 1
        end
      else if between 224 239 c0 then
        let lo := if (b =? 224)%N then 160%N else 128%N in
        let hi := if (b =? 237)%N then 159%N else 191%N in
        match r with
        | String c1 (String c2 _) =>
            if between lo hi c1 && cont c2 then 3 else 1
        | _ => 1
        end
      else if between 240 244 c0 then
        let lo := if (b =? 240)%N then 144%N else 128%N in
        let hi := if (b =? 244)%N then 143%N else 191%N in
        match r with
        | String c1 (String c2 (String c3 _)) =>
            if between lo hi c1 && cont c2 && cont c3 then 4 else 1
        | _ => 1
        end
      else 1
  end%nat.

(** The widths of the runes of [s] in order; [skip] counts the bytes of the
    current rune still to be passed over. *)
Fixpoint runeWidths (skip : nat) (s : string) : list nat :=
  match s with
  | EmptyString => []
  | String _ r =>
      match skip with
      | S k => runeWidths k r
      | O => let w := runeWidth s in w :: runeWidths (w - 1) r
      end
  end.

(** [s] without its last rune. *)
Definition dropLastRune (s : string) : string :=
  substring 0 (String.length s - last (runeWidths 0 s) 0%nat) s.

End Utf8.

Module Regexp.

(** The class [\s] of Go's regexp syntax: tab, newline, form feed, carriage
    return and space. *)
Definition isSpace (c : ascii) : bool :=
  let b := byte c in
  ((b =? 9) || (b =? 10) || (b =? 12) || (b =? 13) || (b =? 32))%N.

Definition isNewline (c : ascii) : bool := (byte c =? 10)%N.

(** The longest prefix of [s] whose bytes satisfy [p], and the rest. *)
Fixpoint span (p : ascii -> bool) (s : string) : string * string :=
  match s with
  | EmptyString => (EmptyString, EmptyString)
  | String c r =>
      if p c then let (a, b) := span p r in (String c a, b)
      else (EmptyString, s)
  end.

Fixpoint drop (n : nat) (s : string) : string :=
  match n, s with
  | S k, String _ r => drop k r
  | _, _ => s
  end.

(** A match of [(?m:Timezone:\s+(\S+).+$)] that starts at the first byte of
    [s], as the list [whole match; group 1].  [\s+] has to take the whole
    run of blanks, for [\S+] needs a non-blank next.  [\S+] is greedy: it
    takes the whole run of non-blanks when [.+] then finds at least one
    byte before the end of the line; otherwise it gives its last rune back
    to [.+], which needs the run to hold two runes. *)
Definition matchHere (s : string) : option (list string) :=
  if prefix "Timezone:" s then
    let (blanks, rest1) := span isSpace (drop 9 s) in
    let (word, rest2) := span (fun c => negb (isSpace c)) rest1 in
    let (line, _) := span (fun c => negb (isNewline c)) rest2 in
    if (String.length blanks =? 0)%nat then None
    else if (String.length word =? 0)%nat then None
    else if (0 <? String.length line)%nat
         then Some ["Timezone:" ++ blanks ++ word ++ line; word]
         else let group := Utf8.dropLastRune word in
              if (String.length group =? 0)%nat then None
              else Some ["Timezone:" ++ blanks ++ word; group]
  else None.

(** [r.FindStringSubmatch(s)]: the leftmost match; [None] is Go's [nil]. *)
Fixpoint FindStringSubmatch (s : string) : option (list string) :=
  match matchHere s with
  | Some sub => Some sub
  | None =>
      match s with
      | EmptyString => None
      | String _ r => FindStringSubmatch r
      end
  end.

End Regexp.

(* ===================================================================== *)
(** * The timezone resolver *)
(* ===================================================================== *)

Module Tz.

(** What the operating system answers to the calls of
    [timezoneLocationName]. *)
Record Env : Type := {
  (** [os.LookupEnv("TZ")]: [Some v] when the variable is set *)
  envTZ : option string;
  (** [exec.Command("timedatectl").Output()]: the output when [err == nil] *)
  timedatectl : option string;
  (** [os.Lstat("/etc/localtime")]: the file mode bits when [err == nil] *)
  lstatLocaltime : option Z;
  (** [os.Readlink("/etc/localtime")]: the target when [err == nil] *)
  readlinkLocaltime : option string;
  (** [ioutil.ReadFile("/etc/timezone")]: the contents when [err == nil] *)
  etcTimezone : option string
}.

(** The sources consulted, in the order of the calls. *)
Inductive Sys : Type :=
| LookupEnv (name : string)
| Exec (command : string)
| Lstat (path : string)
| Readlink (path : string)
| ReadFile (path : string).

(** [os.ModeSymlink], bit 27 of a [FileMode]. *)
Definition ModeSymlink : Z := Z.shiftl 1 27.

Local Open Scope go_scope.

(** Lines 242-247: the timezone file, then the empty string. *)
Definition fromTimezoneFile (env : Env) : M Sys string :=
  emit (ReadFile "/etc/timezone") ;;;
  match etcTimezone env with
  | Some locale => ret locale
  | None => ret ""
  end.

(** Lines 234-240: the target of the local-time symlink. *)
Definition fromLocaltimeLink (env : Env) : M Sys string :=
  emit (Lstat "/etc/localtime") ;;;
  match lstatLocaltime env with
  | Some mode =>
      if Z.land mode ModeSymlink =? ModeSymlink then
        emit (Readlink "/etc/localtime") ;;;
        let symlink := match readlinkLocaltime env with
                       | Some target => target
                       | None => ""
                       end in
        if 0 <? len symlink then
          let symlinkParts := Split symlink "/" in
          tail <- lift (sliceFrom symlinkParts
                          (Z.of_nat (List.length symlinkParts) - 2)) ;;
          ret (Join tail "/")
        else fromTimezoneFile env
      else fromTimezoneFile env
  | None => fromTimezoneFile env
  end.

(** Lines 225-232: the output of [timedatectl]. *)
Definition fromTimedatectl (env : Env) : M Sys string :=
  emit (Exec "timedatectl") ;;;
  match timedatectl env with
  | Some output =>
      let outputString := Replace output "Time zone" "Timezone" in
      match Regexp.FindStringSubmatch outputString with
      | Some (whole :: group :: rest) => ret group
      | _ => fromLocaltimeLink env
      end
  | None => fromLocaltimeLink env
  end.

(** [func timezoneLocationName() string] *)
Definition timezoneLocationName (env : Env) : M Sys string :=
  emit (LookupEnv "TZ") ;;;
  match envTZ env with
  | Some locale => ret locale
  | None => fromTimedatectl env
  end.

End Tz.

(* ===================================================================== *)
(** * The delivery engine *)
(* ===================================================================== *)

Module Ping.

Local Open Scope go_scope.

(** [var version = "1.6.0"]; [userAgent] is set by [init]. *)
Definition version : string := "1.6.0".
Definition userAgent : string := "CronitorCLI/" ++ version.

(** The process-wide configuration [sendPing] reads: the package-level
    flags, the values viper holds, and the host name the OS reports. *)
Record Config : Type := {
  dev : bool;
  verbose : bool;
  (** [viper.GetString(varLog)] *)
  debugLog : string;
  (** [viper.GetString(varPingApiKey)] *)
  pingApiKey : string;
  (** [viper.GetString(varHostname)] *)
  cfgHostname : string;
  (** the name [os.Hostname()] returns; its error is discarded *)
  osHostname : string
}.

(** A [*http.Request] as far as [sendPing] builds it. *)
Record Request : Type := {
  Method : string;
  URL : string;
  Header : list (string * string)
}.

(** What [Client.Do] brings back. *)
Inductive Outcome : Type :=
| TransportError (err : string)
    (** [err != nil] *)
| Response (StatusCode : Z) (readErr : bool)
    (** [err == nil]; [readErr] tells whether [ioutil.ReadAll] of the body
        fails *).

(** The world outside the process: which URLs [http.NewRequest] accepts
    (it returns a nil request and an error for the others), and what the
    call of [Client.Do] made in iteration [i] brings back. *)
Record Net : Type := {
  parses : string -> bool;
  reply : Z -> Outcome
}.

Inductive Event : Type :=
| EvLogFile (path line : string)   (** [log]: a line appended to the log file *)
| EvPrintln (msg : string)         (** [log]: [fmt.Println] *)
| EvDo (request : Request) (timeout : Z)
                                   (** [Client.Do], timeout in seconds *)
| EvReadAll                        (** [ioutil.ReadAll(response.Body)] *)
| EvClose                          (** [response.Body.Close()] *)
| EvSleep (seconds : Z)            (** [time.Sleep] *)
| EvDone.                          (** [group.Done()] *)

(** How an iteration of the loop ends: [continue] or falling off the end
    of the body, or [break]. *)
Inductive Ctl : Type := Continue | Break.

(** How the loop ends: by [break] after a delivered ping ([Succeeded]) or
    with the counter past 6 ([GaveUp]). *)
Inductive Final : Type := Succeeded | GaveUp.

(** [func log(msg string)] *)
Definition log (cfg : Config) (msg : string) : M Event unit :=
  (if 0 <? len (debugLog cfg)
   then emit (EvLogFile (debugLog cfg) (msg ++ String (ascii_of_nat 10) ""))
   else ret tt) ;;;
  (if verbose cfg then emit (EvPrintln msg) else ret tt).

(** [func effectiveHostname() string] *)
Definition effectiveHostname (cfg : Config) : string :=
  if 0 <? len (cfgHostname cfg) then cfgHostname cfg
  else osHostname cfg.

(** The local variables of [sendPing] that make up the query string, with
    the values they hold when the loop starts (line 149). *)
Record Locals : Type := {
  formattedStamp : string;
  message : string;
  pingApiAuthKey : string;
  hostname : string;
  formattedDuration : string;
  tag : string;
  formattedStatusCode : string
}.

(** Lines 118-120 *)
Definition stampOf (timestamp : float) : string :=
  if (0 <? timestamp)%float
  then "&stamp=" ++ formatStamp timestamp
  else "".

(** Lines 122-124 *)
Definition messageOf (message : string) : Res string :=
  if 0 <? len message then
    match truncateString message 2000 with
    | Ret t => Ret ("&msg=" ++ Url.QueryEscape t)
    | Panic why => Panic why
    end
  else Ret message.

(** Lines 126-128 *)
Definition authKeyOf (pingApiAuthKey : string) : Res string :=
  if 0 <? len pingApiAuthKey then
    match truncateString pingApiAuthKey 50 with
    | Ret t => Ret ("&auth_key=" ++ t)
    | Panic why => Panic why
    end
  else Ret pingApiAuthKey.

(** Lines 130-132 *)
Definition hostOf (hostname : string) : Res string :=
  if 0 <? len hostname then
    match truncateString hostname 50 with
    | Ret t => Ret ("&host=" ++ Url.QueryEscape t)
    | Panic why => Panic why
    end
  else Ret hostname.

(** Lines 135-137 *)
Definition durationOf (duration : option float) : string :=
  match duration with
  | Some d => "&duration=" ++ formatStamp d
  | None => ""
  end.

(** Lines 140-142 *)
Definition statusCodeOf (exitCode : option Z) : string :=
  match exitCode with
  | Some c => "&status_code=" ++ itoa c
  | None => ""
  end.

(** Lines 145-147 *)
Definition tagOf (tag : string) : string :=
  if 0 <? len tag then "&tag=" ++ tag else tag.

(** Lines 112-147, in the order of the source. *)
Definition encode (cfg : Config) (message tag : string) (timestamp : float)
    (duration : option float) (exitCode : option Z) : Res Locals :=
  let pingApiAuthKey := pingApiKey cfg in
  let hostname := effectiveHostname cfg in
  let formattedStamp := stampOf timestamp in
  match messageOf message with
  | Panic why => Panic why
  | Ret message =>
  match authKeyOf pingApiAuthKey with
  | Panic why => Panic why
  | Ret pingApiAuthKey =>
  match hostOf hostname with
  | Panic why => Panic why
  | Ret hostname =>
      let formattedDuration := durationOf duration in
      let formattedStatusCode := statusCodeOf exitCode in
      let tag := tagOf tag in
      Ret (Build_Locals formattedStamp message pingApiAuthKey hostname
             formattedDuration tag formattedStatusCode)
  end end end.

(** Lines 151-158: [host] is declared inside the loop body, so every
    iteration starts from its zero value, the empty string. *)
Definition pingHost (dev : bool) (i : Z) : string :=
  let host := "" in
  if dev then "http://dev.cronitor.io"
  else if (2 <? i) && String.eqb host "https://cronitor.link"
       then "https://cronitor.io"
       else "https://cronitor.link".

(** Line 160 *)
Definition pingUri (host uniqueIdentifier endpoint : string) (i : Z)
    (q : Locals) : string :=
  host ++ "/" ++ uniqueIdentifier ++ "/" ++ endpoint ++ "?try=" ++ itoa i
  ++ formattedStamp q ++ message q ++ pingApiAuthKey q ++ hostname q
  ++ formattedDuration q ++ tag q ++ formattedStatusCode q.

(** [http.NewRequest("GET", uri, nil)]; [None] is the nil request. *)
Definition NewRequest (net : Net) (method url : string) : option Request :=
  if parses net url
  then Some {| Method := method; URL := url; Header := [] |}
  else None.

(** [request.Header.Add(key, value)]: dereferences [request]. *)
Definition HeaderAdd (request : option Request) (key value : string)
  : M Event Request :=
  match request with
  | None => lift (Panic "invalid memory address or nil pointer dereference")
  | Some r =>
      ret {| Method := Method r; URL := URL r;
             Header := (Header r ++ [(key, value)])%list |}
  end.

(** [Client.Timeout], in seconds. *)
Definition clientTimeout : Z := 3.

(** Lines 150-182: the body of the loop for the counter value [i]. *)
Definition iteration (cfg : Config) (net : Net)
    (endpoint uniqueIdentifier : string) (q : Locals) (i : Z) : M Event Ctl :=
  let host := pingHost (dev cfg) i in
  let uri := pingUri host uniqueIdentifier endpoint i q in
  log cfg ("Sending ping " ++ uri) ;;;
  let request := NewRequest net "GET" uri in
  request <- HeaderAdd request "User-Agent" userAgent ;;
  emit (EvDo request clientTimeout) ;;;
  match reply net i with
  | TransportError err =>
      log cfg err ;;;
      (if 2 <? i then emit (EvSleep 2) else ret tt) ;;;
      ret Continue
  | Response StatusCode readErr =>
      emit EvReadAll ;;;
      if negb readErr && (StatusCode <? 400) then ret Break
      else emit EvClose ;;; ret Continue
  end.

(** [for i := 1; i <= 6; i++]: the counter is not assigned in the body, so
    the loop runs the body on 1, 2, ..., 6 until a [break] or a panic. *)
Definition tries : list Z := [1; 2; 3; 4; 5; 6].

Fixpoint forEach (l : list Z) (body : Z -> M Event Ctl) : M Event Final :=
  match l with
  | [] => ret GaveUp
  | i :: rest =>
      c <- body i ;;
      match c with
      | Break => ret Succeeded
      | Continue => forEach rest body
      end
  end.

(** [defer group.Done()]: runs when the function returns or panics. *)
Definition deferDone {A} (m : M Event A) : M Event A :=
  let (r, t) := m in (r, (t ++ [EvDone])%list).

(** [func sendPing(endpoint, uniqueIdentifier, message, tag, timestamp,
    duration, exitCode, group)] *)
Definition sendPing (cfg : Config) (net : Net)
    (endpoint uniqueIdentifier message tag : string) (timestamp : float)
    (duration : option float) (exitCode : option Z) : M Event Final :=
  deferDone (
    q <- lift (encode cfg message tag timestamp duration exitCode) ;;
    forEach tries (iteration cfg net endpoint uniqueIdentifier q)).

(** ** Reading a trace *)

(** The attempts and the sleeps of a trace, in order. *)
Inductive Step : Type :=
| Attempt (url : string)
| Nap (seconds : Z).

Fixpoint steps (t : list Event) : list Step :=
  match t with
  | [] => []
  | EvDo r _ :: rest => Attempt (URL r) :: steps rest
  | EvSleep s :: rest => Nap s :: steps rest
  | _ :: rest => steps rest
  end.

Definition isAttempt (s : Step) : bool :=
  match s with Attempt _ => true | Nap _ => false end.

Definition attempts (t : list Event) : nat :=
  List.length (filter isAttempt (steps t)).

Definition naps (t : list Event) : nat :=
  List.length (filter (fun s => negb (isAttempt s)) (steps t)).

End Ping.

(* ===================================================================== *)
(** * The notification encoder, as the specification words it *)
(* ===================================================================== *)

Module Spec.

(** The optional values of a notification.  [sendPing] has no optional
    type for most of them: a time stamp that is not positive, an empty
    message, key, host name or tag, and a nil [duration] or [exitCode]
    stand for a value that was not supplied. *)
Record Notification : Type := {
  stamp : option float;
  msg : option string;
  auth_key : option string;
  host : option string;
  duration : option float;
  tag : option string;
  status_code : option Z
}.

Definition nonEmpty (s : string) : option string :=
  if String.eqb s "" then None else Some s.

(** The notification a call of [sendPing] stands for. *)
Definition supplied (cfg : Ping.Config) (message tag : string)
    (timestamp : float) (duration : option float) (exitCode : option Z)
  : Notification :=
  {| stamp := if (0 <? timestamp)%float then Some timestamp else None;
     msg := nonEmpty message;
     auth_key := nonEmpty (Ping.pingApiKey cfg);
     host := nonEmpty (Ping.effectiveHostname cfg);
     duration := duration;
     tag := nonEmpty tag;
     status_code := exitCode |}.

(** The first [limit] bytes of [s]. *)
Definition firstBytes (limit : nat) (s : string) : string :=
  substring 0 limit s.

Definition param {A} (name : string) (render : A -> string) (v : option A)
  : list (string * string) :=
  match v with
  | Some a => [(name, render a)]
  | None => []
  end.






(** Fixed-point layout: an optional [-], at least one digit, a point and
    exactly three digits, and nothing else (so no exponent). *)
Fixpoint skipDigits (s : string) : string :=
  match s with
  | String c r => if isDigit c then skipDigits r else s
  | EmptyString => EmptyString
  end.

Definition unsignedFixed3 (s : string) : bool :=
  match s with
  | String c _ =>
      isDigit c
      && match skipDigits s with
         | String "."%char f => (String.length f =? 3)%nat && allDigits f
         | _ => false
         end
  | EmptyString => false
  end.

Definition isFixed3 (s : string) : bool :=
  match s with
  | String "-"%char r => unsignedFixed3 r
  | _ => unsignedFixed3 s
  end.

(** An attempt that did not deliver the ping. *)
Definition failed (o : Ping.Outcome) : bool :=
  match o with
  | Ping.TransportError _ => true
  | Ping.Response StatusCode readErr => readErr || (400 <=? StatusCode)
  end.

End Spec.

(* ===================================================================== *)
(** * The provisioning client *)
(* ===================================================================== *)

Module Base64.

(** [encodeStd], the alphabet of [base64.StdEncoding]. *)
Definition encodeStd : string :=
  "ABCDEFGHIJKLMNOPQRSTUVWXYZabcdefghijklmnopqrstuvwxyz0123456789+/".

Definition enc (n : N) : ascii :=
  match String.get (N.to_nat (n mod 64)) encodeStd with
  | Some c => c
  | None => "="%char
  end.

(** [base64.StdEncoding.EncodeToString]: three bytes give four digits; a
    rest of one or two bytes is padded with [=]. *)
Fixpoint EncodeToString (s : string) : string :=
  match s with
  | EmptyString => EmptyString
  | String a EmptyString =>
      let x := byte a in
      String (enc (x / 4)) (String (enc (x mod 4 * 16)) "==")
  | String a (String b EmptyString) =>
      let x := byte a in
      let y := byte b in
      String (enc (x / 4))
        (String (enc (x mod 4 * 16 + y / 16))
           (String (enc (y mod 16 * 4)) "="))
  | String a (String b (String c r)) =>
      let x := byte a in
      let y := byte b in
      let z := byte c in
      String (enc (x / 4))
        (String (enc (x mod 4 * 16 + y / 16))
           (String (enc (y mod 16 * 4 + z / 64))
              (String (enc (z mod 64)) (EncodeToString r))))
  end.

End Base64.

Module Api.

Local Open Scope go_scope.

(** What [client.Do] brings back to [sendApiRequest]. *)
Inductive Outcome : Type :=
| TransportError (err : string)
    (** [err != nil], with [err.Error()] *)
| Response (StatusCode : Z) (body : string) (readErr : option string)
    (** [err == nil]; [readErr] is the error of [ioutil.ReadAll], if any *).

(** The world outside: which URLs [http.NewRequest] accepts, and the
    outcome of the one call of [client.Do]. *)
Record Net : Type := {
  parses : string -> bool;
  reply : Outcome
}.

(** The pair [([]byte, error)] that [sendApiRequest] returns: one of the
    two is nil on every path. *)
Inductive Result : Type :=
| Contents (bytes : string)
| Error (msg : string).

(** [var apiKey] as viper holds it is an argument of the model. *)

(** [http.NewRequest("GET", url, nil)]; [None] is the nil request. *)
Definition NewRequest (net : Net) (method url : string)
  : option Ping.Request :=
  if parses net url
  then Some {| Ping.Method := method; Ping.URL := url; Ping.Header := [] |}
  else None.

(** [request.SetBasicAuth(username, password)]: dereferences [request] and
    sets the one Authorization header. *)
Definition SetBasicAuth (request : option Ping.Request)
    (username password : string) : M Ping.Event Ping.Request :=
  match request with
  | None => lift (Panic "invalid memory address or nil pointer dereference")
  | Some r =>
      let auth := username ++ ":" ++ password in
      let value := "Basic " ++ Base64.EncodeToString auth in
      ret {| Ping.Method := Ping.Method r; Ping.URL := Ping.URL r;
             Ping.Header :=
               (filter (fun kv => negb (String.eqb (fst kv) "Authorization"))
                  (Ping.Header r)
                ++ [("Authorization", value)])%list |}
  end.

(** [&http.Client{}] has no timeout: the zero value. *)
Definition clientTimeout : Z := 0.

(** [func sendApiRequest(url string) ([]byte, error)] *)
Definition sendApiRequest (apiKey : string) (net : Net) (url : string)
  : M Ping.Event Result :=
  let request := NewRequest net "GET" url in
  request <- SetBasicAuth request apiKey "" ;;
  request <- Ping.HeaderAdd (Some request) "Content-Type" "application/json" ;;
  request <- Ping.HeaderAdd (Some request) "User-Agent" Ping.userAgent ;;
  emit (Ping.EvDo request clientTimeout) ;;;
  match reply net with
  | TransportError err => ret (Error err)
  | Response StatusCode body readErr =>
      if negb (StatusCode =? 200)
      then ret (Error ("Unexpected " ++ itoa StatusCode ++ " API response"))
      else
        (* [defer response.Body.Close()] runs after [ReadAll], on both
           returns *)
        emit Ping.EvReadAll ;;;
        match readErr with
        | Some err => emit Ping.EvClose ;;; ret (Error err)
        | None => emit Ping.EvClose ;;; ret (Contents body)
        end
  end.

(** [func apiUrl() string] *)
Definition apiUrl (dev : bool) : string :=
  if dev then "http://dev.cronitor.io/v3/monitors"
  else "https://cronitor.io/v3/monitors".

End Api.

(* ===================================================================== *)
(** * Observations on strings, traces and environments *)
(* ===================================================================== *)

Module Obs.

(** A byte that [url.QueryEscape] can put out: an unreserved byte, the
    [+] of a space, or the [%] and the hexadecimal digits of an escape. *)
Definition querySafe (c : ascii) : bool :=
  isAlnum c
  || Ascii.eqb c "-" || Ascii.eqb c "_" || Ascii.eqb c "." || Ascii.eqb c "~"
  || Ascii.eqb c "+" || Ascii.eqb c "%".

Fixpoint allBytes (p : ascii -> bool) (s : string) : bool :=
  match s with
  | EmptyString => true
  | String c r => p c && allBytes p r
  end.

Definition isSlash (c : ascii) : bool := Ascii.eqb c "/".

Definition noSlash (s : string) : bool :=
  allBytes (fun c => negb (isSlash c)) s.

(** Whether the [timedatectl] step of the resolver yields nothing: the
    command fails, or the pattern does not match its output. *)
Definition timedatectlSilent (env : Tz.Env) : bool :=
  match Tz.timedatectl env with
  | Some output =>
      match Regexp.FindStringSubmatch
              (Replace output "Time zone" "Timezone") with
      | Some (_ :: _ :: _) => false
      | _ => true
      end
  | None => true
  end.

(** Whether /etc/localtime is seen as a symbolic link. *)
Definition localtimeIsLink (env : Tz.Env) : bool :=
  match Tz.lstatLocaltime env with
  | Some mode => Z.land mode Tz.ModeSymlink =? Tz.ModeSymlink
  | None => false
  end.

(** The requests of a trace, with their timeouts. *)
Fixpoint requests (t : list Ping.Event) : list (Ping.Request * Z) :=
  match t with
  | [] => []
  | Ping.EvDo r timeout :: rest => (r, timeout) :: requests rest
  | _ :: rest => requests rest
  end.

Definition isClose (e : Ping.Event) : bool :=
  match e with Ping.EvClose => true | _ => false end.

(** The seconds slept in a trace. *)
Fixpoint slept (t : list Ping.Event) : Z :=
  match t with
  | [] => 0
  | Ping.EvSleep s :: rest => s + slept rest
  | _ :: rest => slept rest
  end.

(** Reading back an unsigned number printed in fixed-point layout with
    three decimals: its value in thousandths, paired with the sign [neg]
    read before it. *)
Definition readUnsigned3 (neg : bool) (body : string) : option (bool * N) :=
  let (ip, rest) := Regexp.span isDigit body in
  match rest with
  | String "."%char fp =>
      match NilZero.uint_of_string ip, NilEmpty.uint_of_string fp with
      | Some di, Some df =>
          if (String.length fp =? 3)%nat
          then Some (neg, (1000 * N.of_uint di + N.of_uint df)%N)
          else None
      | _, _ => None
      end
  | _ => None
  end.

(** Reading back a number printed in fixed-point layout with three
    decimals: its sign and its value in thousandths. *)
Definition readFixed3 (s : string) : option (bool * N) :=
  match s with
  | String "-"%char r => readUnsigned3 true r
  | _ => readUnsigned3 false s
  end.

(** Whether the three decimals printed for [r] read back as [r]. *)
Definition fracReadsBack (r : N) : bool :=
  match NilEmpty.uint_of_string (Strconv.fracDigits 3 r) with
  | Some d => (N.of_uint d =? r)%N
  | None => false
  end.

(** The lines [log] prints on the terminal, in order. *)
Fixpoint printed (t : list Ping.Event) : list string :=
  match t with
  | [] => []
  | Ping.EvPrintln msg :: rest => msg :: printed rest
  | _ :: rest => printed rest
  end.

(** The URLs of the attempts of a trace, in order. *)
Fixpoint attempted (t : list Ping.Event) : list string :=
  match t with
  | [] => []
  | Ping.EvDo r _ :: rest => Ping.URL r :: attempted rest
  | _ :: rest => attempted rest
  end.

(** Whether the pattern of the resolver matches at no position of
    [pre ++ s] that lies in [pre]. *)
Fixpoint noMatchBefore (pre s : string) : bool :=
  match pre with
  | EmptyString => true
  | String _ r =>
      match Regexp.matchHere (pre ++ s) with
      | None => noMatchBefore r s
      | Some _ => false
      end
  end.

End Obs.

(* ===================================================================== *)
(** * Sample inputs *)
(* ===================================================================== *)

Module Sample.

(** A production configuration that logs to a file and to the terminal. *)
Definition cfg : Ping.Config :=
  {| Ping.dev := false;
     Ping.verbose := true;
     Ping.debugLog := "/var/log/cronitor.log";
     Ping.pingApiKey := "";
     Ping.cfgHostname := "";
     Ping.osHostname := "web-1" |}.

(** A network on which every call of [Client.Do] ends the same way. *)
Definition always (o : Ping.Outcome) : Ping.Net :=
  {| Ping.parses := fun _ => true;
     Ping.reply := fun _ => o |}.

(** A network that answers the calls in the order of [l], and times out
    afterwards. *)
Definition script (l : list Ping.Outcome) : Ping.Net :=
  {| Ping.parses := fun _ => true;
     Ping.reply := fun i =>
       nth (Z.to_nat (i - 1)) l (Ping.TransportError "timeout") |}.

(** A network whose [http.NewRequest] rejects control bytes, as net/url
    does. *)
Definition strict (o : Ping.Outcome) : Ping.Net :=
  {| Ping.parses := fun u => negb (Url.stringContainsCTLByte u);
     Ping.reply := fun _ => o |}.

(** [n] times the byte [c]. *)
Fixpoint bytes (n : nat) (c : ascii) : string :=
  match n with
  | O => EmptyString
  | S k => String c (bytes k c)
  end.

End Sample.

(* ===================================================================== *)
(** * Properties *)
(* ===================================================================== *)

(** ** Strings *)


Lemma append_nil_r (a : string) : a ++ "" = a.
Proof. induction a as [|x a IH]; simpl; [reflexivity | now rewrite IH]. Qed.

Lemma length_append (a b : string) :
  String.length (a ++ b) = (String.length a + String.length b)%nat.
Proof. induction a as [|x a IH]; simpl; [reflexivity | now rewrite IH]. Qed.

Lemma firstBytes_length (n : nat) (s : string) :
  String.length (Spec.firstBytes n s) = Nat.min n (String.length s).
Proof.
  unfold Spec.firstBytes. revert n.
  induction s as [|c s IH]; intros [|n]; simpl; try reflexivity.
  now rewrite IH.
Qed.

Lemma firstBytes_prefix (n : nat) (s : string) :
  prefix (Spec.firstBytes n s) s = true.
Proof.
  unfold Spec.firstBytes. revert n.
  induction s as [|c s IH]; intros [|n]; simpl; try reflexivity.
  destruct (ascii_dec c c) as [_|ne]; [apply IH | now elim ne].
Qed.

Lemma firstBytes_all (n : nat) (s : string) :
  (String.length s <= n)%nat -> Spec.firstBytes n s = s.
Proof.
  unfold Spec.firstBytes. revert n.
  induction s as [|c s IH]; intros [|n] H; simpl in *; try reflexivity.
  - lia.
  - f_equal. apply IH. lia.
Qed.

Lemma len_pos (s : string) : s <> "" -> (0 <? len s) = true.
Proof.
  intros H. destruct s as [|c s]; [now elim H|].
  unfold len. simpl String.length. apply Z.ltb_lt. lia.
Qed.

(** ** [truncateString] *)

Lemma truncateString_firstBytes (s : string) (limit : Z) :
  0 <= limit ->
  truncateString s limit = Ret (Spec.firstBytes (Z.to_nat limit) s).
Proof.
  intros Hl. unfold truncateString.
  destruct (Z.leb_spec (len s) limit) as [Hle|Hgt].
  - rewrite firstBytes_all; [reflexivity|]. unfold len in Hle. lia.
  - unfold sliceTo.
    destruct (Z.ltb_spec limit 0) as [?|_]; [lia|].
    destruct (Z.ltb_spec (len s) limit) as [?|_]; [lia|].
    reflexivity.
Qed.

Lemma messageOf_present (message : string) :
  message <> "" ->
  Ping.messageOf message
  = Ret ("&msg=" ++ Url.QueryEscape (Spec.firstBytes 2000 message)).
Proof.
  intros H. unfold Ping.messageOf. rewrite (len_pos _ H).
  rewrite truncateString_firstBytes by lia. reflexivity.
Qed.

Lemma authKeyOf_present (key : string) :
  key <> "" ->
  Ping.authKeyOf key = Ret ("&auth_key=" ++ Spec.firstBytes 50 key).
Proof.
  intros H. unfold Ping.authKeyOf. rewrite (len_pos _ H).
  rewrite truncateString_firstBytes by lia. reflexivity.
Qed.

Lemma hostOf_present (h : string) :
  h <> "" ->
  Ping.hostOf h = Ret ("&host=" ++ Url.QueryEscape (Spec.firstBytes 50 h)).
Proof.
  intros H. unfold Ping.hostOf. rewrite (len_pos _ H).
  rewrite truncateString_firstBytes by lia. reflexivity.
Qed.

(** C7.  [truncateString] never panics on a non-negative limit and returns
    the first [limit] bytes of its input: a prefix of the input that is
    exactly [limit] bytes long when the input is longer, and the input
    itself when it is at or under the limit.  [sendPing] applies it with
    the limits 2000, 50 and 50 to the message, the ping key and the host
    name, and only then escapes the message and the host name. *)
Theorem C7_truncation_before_escaping :
  (forall (s : string) (limit : Z), 0 <= limit ->
     exists t, truncateString s limit = Ret t
       /\ prefix t s = true
       /\ len t = Z.min (len s) limit
       /\ (len s <= limit -> t = s))
  /\ (forall message, message <> "" ->
        exists t, truncateString message 2000 = Ret t
          /\ Ping.messageOf message = Ret ("&msg=" ++ Url.QueryEscape t))
  /\ (forall key, key <> "" ->
        exists t, truncateString key 50 = Ret t
          /\ Ping.authKeyOf key = Ret ("&auth_key=" ++ t))
  /\ (forall h, h <> "" ->
        exists t, truncateString h 50 = Ret t
          /\ Ping.hostOf h = Ret ("&host=" ++ Url.QueryEscape t)).
Proof.
  split; [|split; [|split]].
  - intros s limit Hl. exists (Spec.firstBytes (Z.to_nat limit) s).
    split; [now apply truncateString_firstBytes|].
    split; [apply firstBytes_prefix|].
    split.
    + unfold len. rewrite firstBytes_length. lia.
    + intros Hle. apply firstBytes_all. unfold len in Hle. lia.
  - intros m H. exists (Spec.firstBytes 2000 m). split.
    + now rewrite truncateString_firstBytes by lia.
    + now apply messageOf_present.
  - intros k H. exists (Spec.firstBytes 50 k). split.
    + now rewrite truncateString_firstBytes by lia.
    + now apply authKeyOf_present.
  - intros h H. exists (Spec.firstBytes 50 h). split.
    + now rewrite truncateString_firstBytes by lia.
    + now apply hostOf_present.
Qed.

(** A message of 2003 bytes, a key of 52 and a host name of 5. *)
Lemma C7_witness :
  (exists t, truncateString ("abc" ++ Sample.bytes 2000 "x") 2000 = Ret t
     /\ prefix t ("abc" ++ Sample.bytes 2000 "x") = true
     /\ len t = Z.min (len ("abc" ++ Sample.bytes 2000 "x")) 2000
     /\ (len ("abc" ++ Sample.bytes 2000 "x") <= 2000
         -> t = "abc" ++ Sample.bytes 2000 "x"))
  /\ (exists t, truncateString ("a b" ++ Sample.bytes 2000 "x") 2000 = Ret t
        /\ Ping.messageOf ("a b" ++ Sample.bytes 2000 "x")
           = Ret ("&msg=" ++ Url.QueryEscape t))
  /\ (exists t, truncateString (Sample.bytes 52 "k") 50 = Ret t
        /\ Ping.authKeyOf (Sample.bytes 52 "k") = Ret ("&auth_key=" ++ t))
  /\ (exists t, truncateString "web 1" 50 = Ret t
        /\ Ping.hostOf "web 1" = Ret ("&host=" ++ Url.QueryEscape t)).
Proof.
  split; [|split; [|split]].
  - apply (proj1 C7_truncation_before_escaping). lia.
  - apply (proj1 (proj2 C7_truncation_before_escaping)). discriminate.
  - apply (proj1 (proj2 (proj2 C7_truncation_before_escaping))). discriminate.
  - apply (proj2 (proj2 (proj2 C7_truncation_before_escaping))). discriminate.
Defined.

(** ** [formatStamp] *)

Lemma allDigits_app (a b : string) :
  allDigits (a ++ b) = allDigits a && allDigits b.
Proof.
  induction a as [|c a IH]; simpl; [reflexivity|].
  now rewrite IH, andb_assoc.
Qed.

Lemma isDigit_digit (n : N) : isDigit (Strconv.digit n) = true.
Proof.
  unfold isDigit, Strconv.digit, byte.
  assert (H : (n mod 10 < 10)%N) by (apply N.mod_lt; discriminate).
  generalize dependent (n mod 10)%N. intros k H.
  rewrite N_ascii_embedding by lia.
  apply andb_true_intro. split; apply N.leb_le; lia.
Qed.

Lemma fracDigits_allDigits (prec : nat) (r : N) :
  allDigits (Strconv.fracDigits prec r) = true.
Proof.
  revert r. induction prec as [|k IH]; intros r; simpl; [reflexivity|].
  rewrite allDigits_app, IH. simpl. now rewrite isDigit_digit.
Qed.

Lemma fracDigits_length (prec : nat) (r : N) :
  String.length (Strconv.fracDigits prec r) = prec.
Proof.
  revert r. induction prec as [|k IH]; intros r; simpl; [reflexivity|].
  rewrite length_append, IH. simpl. lia.
Qed.

Lemma uint_allDigits (d : Decimal.uint) :
  allDigits (NilEmpty.string_of_uint d) = true.
Proof. induction d; simpl; auto. Qed.

(** The integer part printed for [n]: digits, and at least one. *)
Lemma intPart_digits (n : N) :
  exists c r, NilZero.string_of_uint (N.to_uint n) = String c r
              /\ isDigit c = true /\ allDigits r = true.
Proof.
  unfold NilZero.string_of_uint.
  pose proof (uint_allDigits (N.to_uint n)) as H.
  destruct (N.to_uint n) as [|d|d|d|d|d|d|d|d|d|d]; simpl in *;
    eexists; eexists; (split; [reflexivity|]); split;
    solve [reflexivity | exact H].
Qed.

Lemma skipDigits_point (ds f : string) :
  allDigits ds = true ->
  Spec.skipDigits (ds ++ String "." f) = String "." f.
Proof.
  induction ds as [|c ds IH]; simpl; intros H; [reflexivity|].
  apply andb_prop in H. destruct H as [Hc Hds].
  rewrite Hc. now apply IH.
Qed.

Lemma unsignedFixed3_intro (c : ascii) (ds f : string) :
  isDigit c = true -> allDigits ds = true ->
  allDigits f = true -> String.length f = 3%nat ->
  Spec.unsignedFixed3 (String c ds ++ String "." f) = true.
Proof.
  intros Hc Hds Hf Hlen.
  change (Spec.unsignedFixed3 (String c (ds ++ String "." f)) = true).
  unfold Spec.unsignedFixed3. cbn [Spec.skipDigits].
  rewrite Hc, skipDigits_point by exact Hds.
  now rewrite Hlen, Hf.
Qed.

Lemma digit_not_minus (c : ascii) (r : string) :
  isDigit c = true -> Spec.isFixed3 (String c r) = Spec.unsignedFixed3 (String c r).
Proof.
  intros H.
  destruct c as [[] [] [] [] [] [] [] []]; try discriminate H; reflexivity.
Qed.

Lemma fmtF_fixed3 (neg : bool) (n : N) :
  Spec.isFixed3 (Strconv.fmtF neg n 3) = true.
Proof.
  unfold Strconv.fmtF.
  destruct (intPart_digits (n / 10 ^ N.of_nat 3)) as (c & r & E & Hc & Hr).
  rewrite E.
  assert (U : Spec.unsignedFixed3
                (String c r ++ String "." (Strconv.fracDigits 3 (n mod 10 ^ N.of_nat 3)))
              = true).
  { apply unsignedFixed3_intro; auto using fracDigits_allDigits, fracDigits_length. }
  destruct neg.
  - exact U.
  - change ("" ++ ?x) with x. cbn [append] in *.
    rewrite digit_not_minus by exact Hc. exact U.
Qed.

(** A finite [float64] is a zero or a signed mantissa with an exponent. *)
Lemma finite_Prim2SF (x : float) :
  is_finite x = true ->
  (exists s, Prim2SF x = S754_zero s)
  \/ (exists s m e, Prim2SF x = S754_finite s m e).
Proof.
  unfold is_finite. intros H.
  apply negb_true_iff, orb_false_iff in H. destruct H as [Hn Hi].
  unfold Prim2SF. rewrite Hn, Hi.
  destruct (is_zero x); [left; eauto|].
  destruct (Z.frexp x) as [r ex].
  destruct (shr_fexp _ _ _ _ _) as [shr e'].
  destruct (shr_m shr); [left | right | left]; eauto.
Qed.

Lemma formatStamp_finite (x : float) :
  is_finite x = true -> Spec.isFixed3 (formatStamp x) = true.
Proof.
  intros H. unfold formatStamp, Strconv.FormatFloat_f.
  destruct (finite_Prim2SF x H) as [[s E] | (s & m & e & E)]; rewrite E;
    apply fmtF_fixed3.
Qed.

#[local] Set Warnings "-inexact-float".

(** C9, as amended.  Every finite time stamp or duration is rendered in
    fixed-point layout with exactly three digits after the point and no
    exponent, and 1700000000.123456 is rendered as 1700000000.123. *)
Theorem C9_fixed_point_when_finite :
  (forall x : float, is_finite x = true -> Spec.isFixed3 (formatStamp x) = true)
  /\ formatStamp 1700000000.123456 = "1700000000.123".
Proof.
  split.
  - exact formatStamp_finite.
  - vm_compute. reflexivity.
Qed.

Lemma C9_witness :
  is_finite 1700000000.123456 = true
  /\ Spec.isFixed3 (formatStamp 1700000000.123456) = true.
Proof.
  split.
  - vm_compute. reflexivity.
  - apply (proj1 C9_fixed_point_when_finite). vm_compute. reflexivity.
Defined.

(** C9 as stated fails on the values of [float64] that are not finite: a
    NaN is rendered as the three letters NaN, and an infinite duration as
    +Inf, neither of which has a decimal point. *)
Lemma C9_counterexample :
  formatStamp nan = "NaN"
  /\ Spec.isFixed3 (formatStamp nan) = false
  /\ formatStamp infinity = "+Inf"
  /\ Spec.isFixed3 (formatStamp infinity) = false.
Proof. repeat split; vm_compute; reflexivity. Qed.

(** ** Host selection *)

(** C1.  What lines 151-158 compute: outside dev mode the host of every
    iteration is the short-link host, also from the third iteration on,
    because the comparison on line 154 reads the zero value of the
    loop-local [host]; in dev mode it is the dev host. *)
Theorem C1_host_of_every_attempt :
  (forall i : Z, Ping.pingHost false i = "https://cronitor.link")
  /\ Ping.pingHost false 3 <> "https://cronitor.io"
  /\ (forall i : Z, Ping.pingHost true i = "http://dev.cronitor.io").
Proof.
  split; [|split].
  - intros i. unfold Ping.pingHost.
    change (String.eqb "" "https://cronitor.link") with false.
    now rewrite andb_false_r.
  - vm_compute. discriminate.
  - reflexivity.
Qed.

(** ** The timezone resolver *)

(** C8.  When the variable TZ is set, also to the empty string, the
    resolver returns its value and makes no other call. *)
Theorem C8_TZ_short_circuits (env : Tz.Env) (v : string) :
  Tz.envTZ env = Some v ->
  Tz.timezoneLocationName env = (Ret v, [Tz.LookupEnv "TZ"]).
Proof.
  intros H. unfold Tz.timezoneLocationName. rewrite H. reflexivity.
Qed.

(** An environment in which every other source names another zone. *)
Lemma C8_witness :
  let env := {| Tz.envTZ := Some "Europe/Paris";
                Tz.timedatectl :=
                  Some "       Time zone: Asia/Tokyo (JST, +0900)";
                Tz.lstatLocaltime := Some (Z.lor Tz.ModeSymlink 511);
                Tz.readlinkLocaltime :=
                  Some "/usr/share/zoneinfo/America/New_York";
                Tz.etcTimezone := Some "Etc/UTC" |} in
  Tz.envTZ env = Some "Europe/Paris"
  /\ Tz.timezoneLocationName env = (Ret "Europe/Paris", [Tz.LookupEnv "TZ"])
  /\ Tz.timezoneLocationName
       {| Tz.envTZ := Some ""; Tz.timedatectl := Tz.timedatectl env;
          Tz.lstatLocaltime := Tz.lstatLocaltime env;
          Tz.readlinkLocaltime := Tz.readlinkLocaltime env;
          Tz.etcTimezone := Tz.etcTimezone env |}
     = (Ret "", [Tz.LookupEnv "TZ"]).
Proof.
  split; [reflexivity|]. split.
  - apply C8_TZ_short_circuits. reflexivity.
  - apply C8_TZ_short_circuits. reflexivity.
Defined.

(** Without TZ the same environment is resolved by the later steps. *)
Example resolver_falls_through :
  Tz.timezoneLocationName
    {| Tz.envTZ := None;
       Tz.timedatectl := Some "       Time zone: Asia/Tokyo (JST, +0900)";
       Tz.lstatLocaltime := None; Tz.readlinkLocaltime := None;
       Tz.etcTimezone := None |}
  = (Ret "Asia/Tokyo", [Tz.LookupEnv "TZ"; Tz.Exec "timedatectl"])
  /\ Tz.timezoneLocationName
       {| Tz.envTZ := None; Tz.timedatectl := None;
          Tz.lstatLocaltime := Some (Z.lor Tz.ModeSymlink 511);
          Tz.readlinkLocaltime := Some "/usr/share/zoneinfo/America/New_York";
          Tz.etcTimezone := Some "Etc/UTC" |}
     = (Ret "America/New_York",
        [Tz.LookupEnv "TZ"; Tz.Exec "timedatectl"; Tz.Lstat "/etc/localtime";
         Tz.Readlink "/etc/localtime"])
  /\ Tz.timezoneLocationName
       {| Tz.envTZ := None; Tz.timedatectl := None;
          Tz.lstatLocaltime := Some 420; Tz.readlinkLocaltime := None;
          Tz.etcTimezone := Some "Etc/UTC" |}
     = (Ret "Etc/UTC",
        [Tz.LookupEnv "TZ"; Tz.Exec "timedatectl"; Tz.Lstat "/etc/localtime";
         Tz.ReadFile "/etc/timezone"])
  /\ Tz.timezoneLocationName
       {| Tz.envTZ := None; Tz.timedatectl := None;
          Tz.lstatLocaltime := None; Tz.readlinkLocaltime := None;
          Tz.etcTimezone := None |}
     = (Ret "",
        [Tz.LookupEnv "TZ"; Tz.Exec "timedatectl"; Tz.Lstat "/etc/localtime";
         Tz.ReadFile "/etc/timezone"]).
Proof. repeat split; vm_compute; reflexivity. Qed.

(** C5.  The resolver at an environment without TZ and without
    [timedatectl] in which /etc/localtime is a symbolic link whose target
    has no slash: [strings.Split] yields one part, the lower bound
    [len(symlinkParts)-2] of the slice on line 238 is -1, and the resolver
    panics instead of going on to /etc/timezone. *)
Theorem C5_panic_on_one_segment_link :
  Tz.timezoneLocationName
    {| Tz.envTZ := None;
       Tz.timedatectl := None;
       Tz.lstatLocaltime := Some (Z.lor Tz.ModeSymlink 511);
       Tz.readlinkLocaltime := Some "UTC";
       Tz.etcTimezone := Some "Etc/UTC" |}
  = (Panic "slice bounds out of range",
     [Tz.LookupEnv "TZ"; Tz.Exec "timedatectl"; Tz.Lstat "/etc/localtime";
      Tz.Readlink "/etc/localtime"]).
Proof. vm_compute. reflexivity. Qed.

(** ** The notification encoder *)

Local Abbreviation pair_text := (fun kv : string * string => fst kv ++ "=" ++ snd kv).
Local Abbreviation amps l :=
  (fold_right (fun x acc => "&" ++ x ++ acc) "" (map pair_text l)).



Lemma amps_param {A} (name : string) (render : A -> string) (v : option A) :
  amps (Spec.param name render v)
  = match v with
    | Some a => "&" ++ name ++ "=" ++ render a
    | None => ""
    end.
Proof.
  destruct v as [a|]; [|reflexivity].
  cbn [Spec.param map fold_right fst snd].
  now rewrite append_nil_r.
Qed.

Lemma nonEmpty_cases (s : string) :
  (s = "" /\ Spec.nonEmpty s = None) \/ (s <> "" /\ Spec.nonEmpty s = Some s).
Proof. destruct s; [left | right]; split; (reflexivity || discriminate). Qed.

Lemma stampOf_amps (timestamp : float) :
  Ping.stampOf timestamp
  = amps (Spec.param "stamp" formatStamp
            (if (0 <? timestamp)%float then Some timestamp else None)).
Proof.
  rewrite amps_param. unfold Ping.stampOf.
  destruct (0 <? timestamp)%float; reflexivity.
Qed.

Lemma messageOf_amps (message : string) :
  Ping.messageOf message
  = Ret (amps (Spec.param "msg"
                 (fun m => Url.QueryEscape (Spec.firstBytes 2000 m))
                 (Spec.nonEmpty message))).
Proof.
  rewrite amps_param.
  destruct (nonEmpty_cases message) as [[E N] | [E N]]; rewrite N.
  - now subst.
  - now rewrite messageOf_present.
Qed.

Lemma authKeyOf_amps (key : string) :
  Ping.authKeyOf key
  = Ret (amps (Spec.param "auth_key" (Spec.firstBytes 50) (Spec.nonEmpty key))).
Proof.
  rewrite amps_param.
  destruct (nonEmpty_cases key) as [[E N] | [E N]]; rewrite N.
  - now subst.
  - now rewrite authKeyOf_present.
Qed.

Lemma hostOf_amps (h : string) :
  Ping.hostOf h
  = Ret (amps (Spec.param "host"
                 (fun h => Url.QueryEscape (Spec.firstBytes 50 h))
                 (Spec.nonEmpty h))).
Proof.
  rewrite amps_param.
  destruct (nonEmpty_cases h) as [[E N] | [E N]]; rewrite N.
  - now subst.
  - now rewrite hostOf_present.
Qed.

Lemma tagOf_amps (tag : string) :
  Ping.tagOf tag = amps (Spec.param "tag" (fun t => t) (Spec.nonEmpty tag)).
Proof.
  rewrite amps_param. unfold Ping.tagOf.
  destruct (nonEmpty_cases tag) as [[E N] | [E N]]; rewrite N.
  - now subst.
  - now rewrite len_pos.
Qed.

Lemma durationOf_amps (duration : option float) :
  Ping.durationOf duration = amps (Spec.param "duration" formatStamp duration).
Proof. rewrite amps_param. now destruct duration. Qed.

Lemma statusCodeOf_amps (exitCode : option Z) :
  Ping.statusCodeOf exitCode = amps (Spec.param "status_code" itoa exitCode).
Proof. rewrite amps_param. now destruct exitCode. Qed.

(** The locals [sendPing] holds when its loop starts: the encoder never
    panics. *)
Lemma encode_total (cfg : Ping.Config) (message tag : string)
    (timestamp : float) (duration : option float) (exitCode : option Z) :
  let n := Spec.supplied cfg message tag timestamp duration exitCode in
  Ping.encode cfg message tag timestamp duration exitCode
  = Ret {| Ping.formattedStamp := amps (Spec.param "stamp" formatStamp (Spec.stamp n));
           Ping.message :=
             amps (Spec.param "msg"
                     (fun m => Url.QueryEscape (Spec.firstBytes 2000 m))
                     (Spec.msg n));
           Ping.pingApiAuthKey :=
             amps (Spec.param "auth_key" (Spec.firstBytes 50) (Spec.auth_key n));
           Ping.hostname :=
             amps (Spec.param "host"
                     (fun h => Url.QueryEscape (Spec.firstBytes 50 h))
                     (Spec.host n));
           Ping.formattedDuration :=
             amps (Spec.param "duration" formatStamp (Spec.duration n));
           Ping.tag := amps (Spec.param "tag" (fun t => t) (Spec.tag n));
           Ping.formattedStatusCode :=
             amps (Spec.param "status_code" itoa (Spec.status_code n)) |}.
Proof.
  intros n. unfold Ping.encode.
  rewrite messageOf_amps, authKeyOf_amps, hostOf_amps.
  rewrite stampOf_amps, durationOf_amps, statusCodeOf_amps, tagOf_amps.
  reflexivity.
Qed.


(** ** The delivery engine *)

Lemma steps_app (a b : list Ping.Event) :
  Ping.steps (a ++ b) = (Ping.steps a ++ Ping.steps b)%list.
Proof.
  induction a as [|e a IH]; [reflexivity|].
  destruct e; simpl; now rewrite ?IH.
Qed.

Lemma bind_ret {E A B} (a : A) (t : list E) (k : A -> M E B) :
  bind (Ret a, t) k = (fst (k a), (t ++ snd (k a))%list).
Proof. unfold bind. now destruct (k a). Qed.

Lemma bind_fst_ret {E A B} (m : M E A) (a : A) (k : A -> M E B) :
  fst m = Ret a -> bind m k = (fst (k a), (snd m ++ snd (k a))%list).
Proof. destruct m as [r t]. simpl. intros ->. apply bind_ret. Qed.

Lemma log_fst (cfg : Ping.Config) (msg : string) :
  fst (Ping.log cfg msg) = Ret tt.
Proof.
  unfold Ping.log.
  destruct (0 <? len (Ping.debugLog cfg)), (Ping.verbose cfg); reflexivity.
Qed.

Lemma log_steps (cfg : Ping.Config) (msg : string) :
  Ping.steps (snd (Ping.log cfg msg)) = [].
Proof.
  unfold Ping.log.
  destruct (0 <? len (Ping.debugLog cfg)), (Ping.verbose cfg); reflexivity.
Qed.

(** An iteration whose request is built: its way out of the body, and its
    attempt and sleep. *)
Lemma iteration_built (cfg : Ping.Config) (net : Ping.Net)
    (endpoint uniqueIdentifier : string) (q : Ping.Locals) (i : Z) :
  let uri := Ping.pingUri (Ping.pingHost (Ping.dev cfg) i)
               uniqueIdentifier endpoint i q in
  let it := Ping.iteration cfg net endpoint uniqueIdentifier q i in
  Ping.parses net uri = true ->
  fst it = Ret (if Spec.failed (Ping.reply net i)
                then Ping.Continue else Ping.Break)
  /\ Ping.steps (snd it)
     = Ping.Attempt uri
       :: match Ping.reply net i with
          | Ping.TransportError _ => if 2 <? i then [Ping.Nap 2] else []
          | Ping.Response _ _ => []
          end.
Proof.
  intros uri it Hp. subst it.
  unfold Ping.iteration, Ping.log, Ping.NewRequest. fold uri. rewrite Hp.
  clearbody uri. unfold Spec.failed.
  destruct (0 <? len (Ping.debugLog cfg)), (Ping.verbose cfg),
    (Ping.reply net i) as [err | st [|]];
    try (destruct (2 <? i));
    try (destruct (Z.ltb_spec st 400); destruct (Z.leb_spec 400 st); try lia);
    split; reflexivity.
Qed.

(** An iteration whose request is nil: it panics on line 164, after the
    log line and before [Client.Do]. *)
Lemma iteration_nil_request (cfg : Ping.Config) (net : Ping.Net)
    (endpoint uniqueIdentifier : string) (q : Ping.Locals) (i : Z) :
  let uri := Ping.pingUri (Ping.pingHost (Ping.dev cfg) i)
               uniqueIdentifier endpoint i q in
  Ping.parses net uri = false ->
  Ping.iteration cfg net endpoint uniqueIdentifier q i
  = (Panic "invalid memory address or nil pointer dereference",
     snd (Ping.log cfg ("Sending ping " ++ uri))).
Proof.
  intros uri Hp.
  unfold Ping.iteration, Ping.log, Ping.NewRequest. fold uri. rewrite Hp.
  clearbody uri.
  destruct (0 <? len (Ping.debugLog cfg)), (Ping.verbose cfg); reflexivity.
Qed.

Lemma forEach_continue (body : Z -> M Ping.Event Ping.Ctl) (i : Z)
    (rest : list Z) :
  fst (body i) = Ret Ping.Continue ->
  Ping.forEach (i :: rest) body
  = (fst (Ping.forEach rest body),
     (snd (body i) ++ snd (Ping.forEach rest body))%list).
Proof. intros H. cbn [Ping.forEach]. now rewrite (bind_fst_ret _ _ _ H). Qed.

Lemma forEach_break (body : Z -> M Ping.Event Ping.Ctl) (i : Z)
    (rest : list Z) :
  fst (body i) = Ret Ping.Break ->
  Ping.forEach (i :: rest) body = (Ret Ping.Succeeded, snd (body i)).
Proof.
  intros H. cbn [Ping.forEach]. rewrite (bind_fst_ret _ _ _ H).
  cbn. now rewrite app_nil_r.
Qed.

Lemma forEach_panic (body : Z -> M Ping.Event Ping.Ctl) (i : Z)
    (rest : list Z) (why : string) :
  fst (body i) = Panic why ->
  Ping.forEach (i :: rest) body = (Panic why, snd (body i)).
Proof.
  intros H. cbn [Ping.forEach]. destruct (body i) as [r t].
  simpl in H. subst r. reflexivity.
Qed.

Lemma sendPing_loop (cfg : Ping.Config) (net : Ping.Net)
    (endpoint uniqueIdentifier message tag : string) (timestamp : float)
    (duration : option float) (exitCode : option Z) (q : Ping.Locals) :
  Ping.encode cfg message tag timestamp duration exitCode = Ret q ->
  let loop := Ping.forEach Ping.tries
                (Ping.iteration cfg net endpoint uniqueIdentifier q) in
  Ping.sendPing cfg net endpoint uniqueIdentifier message tag timestamp
    duration exitCode
  = (fst loop, (snd loop ++ [Ping.EvDone])%list).
Proof.
  intros E loop. unfold Ping.sendPing. rewrite E.
  unfold lift. rewrite bind_ret. reflexivity.
Qed.

Lemma encode_returns (cfg : Ping.Config) (message tag : string)
    (timestamp : float) (duration : option float) (exitCode : option Z) :
  exists q, Ping.encode cfg message tag timestamp duration exitCode = Ret q.
Proof. eexists. apply encode_total. Qed.

(** The facts of [iteration_built] for the iteration [i], under the
    hypothesis [Hp] that every URL is accepted. *)
Ltac iteration_facts Hp i :=
  let Hf := fresh "Hf" in
  let Hs := fresh "Hs" in
  match goal with
  | |- context [Ping.forEach _ (Ping.iteration ?cfg ?net ?e ?u ?q)] =>
      destruct (iteration_built cfg net e u q i (Hp _)) as [Hf Hs]
  end.

(** C2.  What [sendPing] does when every attempt ends in a transport
    error: six attempts, and a sleep of two seconds after each of the
    attempts 3, 4, 5 and 6, so four sleeps, the last one after the final
    attempt; the loop then ends with the counter past 6. *)
Theorem C2_all_attempts_fail (cfg : Ping.Config) (net : Ping.Net)
    (endpoint uniqueIdentifier message tag : string) (timestamp : float)
    (duration : option float) (exitCode : option Z) :
  (forall u, Ping.parses net u = true) ->
  (forall i, exists err, Ping.reply net i = Ping.TransportError err) ->
  exists q,
    Ping.encode cfg message tag timestamp duration exitCode = Ret q
    /\ let run := Ping.sendPing cfg net endpoint uniqueIdentifier message tag
                    timestamp duration exitCode in
       let u i := Ping.pingUri (Ping.pingHost (Ping.dev cfg) i)
                    uniqueIdentifier endpoint i q in
       fst run = Ret Ping.GaveUp
       /\ Ping.steps (snd run)
          = [Ping.Attempt (u 1); Ping.Attempt (u 2); Ping.Attempt (u 3);
             Ping.Nap 2; Ping.Attempt (u 4); Ping.Nap 2;
             Ping.Attempt (u 5); Ping.Nap 2; Ping.Attempt (u 6); Ping.Nap 2]
       /\ Ping.attempts (snd run) = 6%nat
       /\ Ping.naps (snd run) = 4%nat.
Proof.
  intros Hp Hr.
  destruct (encode_returns cfg message tag timestamp duration exitCode)
    as [q E].
  exists q. split; [exact E|].
  rewrite (sendPing_loop _ _ _ _ _ _ _ _ _ _ E). cbn zeta. cbn [fst snd].
  unfold Ping.tries.
  assert (S : Ping.steps
                (snd (Ping.forEach [1; 2; 3; 4; 5; 6]
                        (Ping.iteration cfg net endpoint uniqueIdentifier q))
                 ++ [Ping.EvDone])
              = [Ping.Attempt (Ping.pingUri (Ping.pingHost (Ping.dev cfg) 1) uniqueIdentifier endpoint 1 q);
                 Ping.Attempt (Ping.pingUri (Ping.pingHost (Ping.dev cfg) 2) uniqueIdentifier endpoint 2 q);
                 Ping.Attempt (Ping.pingUri (Ping.pingHost (Ping.dev cfg) 3) uniqueIdentifier endpoint 3 q);
                 Ping.Nap 2;
                 Ping.Attempt (Ping.pingUri (Ping.pingHost (Ping.dev cfg) 4) uniqueIdentifier endpoint 4 q);
                 Ping.Nap 2;
                 Ping.Attempt (Ping.pingUri (Ping.pingHost (Ping.dev cfg) 5) uniqueIdentifier endpoint 5 q);
                 Ping.Nap 2;
                 Ping.Attempt (Ping.pingUri (Ping.pingHost (Ping.dev cfg) 6) uniqueIdentifier endpoint 6 q);
                 Ping.Nap 2]
              /\ fst (Ping.forEach [1; 2; 3; 4; 5; 6]
                        (Ping.iteration cfg net endpoint uniqueIdentifier q))
                 = Ret Ping.GaveUp).
  { iteration_facts Hp 1. iteration_facts Hp 2. iteration_facts Hp 3.
    iteration_facts Hp 4. iteration_facts Hp 5. iteration_facts Hp 6.
    destruct (Hr 1) as [e1 R1]. destruct (Hr 2) as [e2 R2].
    destruct (Hr 3) as [e3 R3]. destruct (Hr 4) as [e4 R4].
    destruct (Hr 5) as [e5 R5]. destruct (Hr 6) as [e6 R6].
    rewrite R1 in Hf, Hs. rewrite R2 in Hf0, Hs0. rewrite R3 in Hf1, Hs1.
    rewrite R4 in Hf2, Hs2. rewrite R5 in Hf3, Hs3. rewrite R6 in Hf4, Hs4.
    cbn [Spec.failed] in *.
    rewrite !forEach_continue by assumption. cbn [fst snd Ping.forEach ret].
    rewrite !steps_app, Hs, Hs0, Hs1, Hs2, Hs3, Hs4.
    split; reflexivity. }
  destruct S as [S F]. unfold Ping.attempts, Ping.naps.
  rewrite S, F. repeat split; reflexivity.
Qed.

Lemma C2_witness :
  let net := Sample.always (Ping.TransportError "dial tcp: i/o timeout") in
  (forall u, Ping.parses net u = true)
  /\ (forall i, exists err, Ping.reply net i = Ping.TransportError err)
  /\ exists q,
       Ping.encode Sample.cfg "" "" 0 None None = Ret q
       /\ let run := Ping.sendPing Sample.cfg net "run" "d3x0c1" "" "" 0
                       None None in
          let u i := Ping.pingUri (Ping.pingHost (Ping.dev Sample.cfg) i)
                       "d3x0c1" "run" i q in
          fst run = Ret Ping.GaveUp
          /\ Ping.steps (snd run)
             = [Ping.Attempt (u 1); Ping.Attempt (u 2); Ping.Attempt (u 3);
                Ping.Nap 2; Ping.Attempt (u 4); Ping.Nap 2;
                Ping.Attempt (u 5); Ping.Nap 2; Ping.Attempt (u 6);
                Ping.Nap 2]
          /\ Ping.attempts (snd run) = 6%nat
          /\ Ping.naps (snd run) = 4%nat.
Proof.
  intros net.
  assert (Hp : forall u, Ping.parses net u = true) by reflexivity.
  assert (Hr : forall i, exists err, Ping.reply net i = Ping.TransportError err)
    by (intros i; eexists; reflexivity).
  split; [exact Hp|]. split; [exact Hr|].
  exact (C2_all_attempts_fail Sample.cfg net "run" "d3x0c1" "" "" 0 None None
           Hp Hr).
Defined.

(** The run of [C2_witness], event by event. *)
Example all_attempts_fail_trace :
  Ping.steps
    (snd (Ping.sendPing Sample.cfg
            (Sample.always (Ping.TransportError "dial tcp: i/o timeout"))
            "run" "d3x0c1" "" "" 0 None None))
  = [Ping.Attempt "https://cronitor.link/d3x0c1/run?try=1&host=web-1";
     Ping.Attempt "https://cronitor.link/d3x0c1/run?try=2&host=web-1";
     Ping.Attempt "https://cronitor.link/d3x0c1/run?try=3&host=web-1";
     Ping.Nap 2;
     Ping.Attempt "https://cronitor.link/d3x0c1/run?try=4&host=web-1";
     Ping.Nap 2;
     Ping.Attempt "https://cronitor.link/d3x0c1/run?try=5&host=web-1";
     Ping.Nap 2;
     Ping.Attempt "https://cronitor.link/d3x0c1/run?try=6&host=web-1";
     Ping.Nap 2].
Proof. vm_compute. reflexivity. Qed.




(** C4.  An iteration whose request is built leaves the loop by [break]
    exactly when [Client.Do] returns a response whose body is read
    without error and whose status is below 400; the loop then ends at
    once, whatever values of the counter remain.  A run whose first
    attempt fails and whose second is answered 200 makes two attempts and
    no sleep. *)
Theorem C4_success_ends_the_sequence (cfg : Ping.Config) (net : Ping.Net)
    (endpoint uniqueIdentifier : string) :
  (forall u, Ping.parses net u = true) ->
  (forall (q : Ping.Locals) (i : Z) (rest : list Z),
     let body := Ping.iteration cfg net endpoint uniqueIdentifier q in
     (fst (body i) = Ret Ping.Break
      <-> exists st, Ping.reply net i = Ping.Response st false /\ st < 400)
     /\ (fst (body i) = Ret Ping.Break ->
         Ping.forEach (i :: rest) body = (Ret Ping.Succeeded, snd (body i))))
  /\ (forall (message tag : string) (timestamp : float)
        (duration : option float) (exitCode : option Z),
        Spec.failed (Ping.reply net 1) = true ->
        Ping.reply net 2 = Ping.Response 200 false ->
        exists q,
          Ping.encode cfg message tag timestamp duration exitCode = Ret q
          /\ let run := Ping.sendPing cfg net endpoint uniqueIdentifier
                          message tag timestamp duration exitCode in
             let u i := Ping.pingUri (Ping.pingHost (Ping.dev cfg) i)
                          uniqueIdentifier endpoint i q in
             fst run = Ret Ping.Succeeded
             /\ Ping.steps (snd run) = [Ping.Attempt (u 1); Ping.Attempt (u 2)]
             /\ Ping.attempts (snd run) = 2%nat
             /\ Ping.naps (snd run) = 0%nat).
Proof.
  intros Hp. split.
  - intros q i rest body.
    destruct (iteration_built cfg net endpoint uniqueIdentifier q i (Hp _))
      as [Hf _].
    fold body in Hf. split; [|apply forEach_break].
    rewrite Hf. unfold Spec.failed.
    destruct (Ping.reply net i) as [err | st [|]]; cbn [orb].
    + split; [discriminate | intros (s & H & _); discriminate].
    + split; [discriminate | intros (s & H & _); discriminate].
    + destruct (Z.leb_spec 400 st) as [Hge | Hlt]; split.
      * discriminate.
      * intros (s & H & Hs). injection H as <-. lia.
      * intros _. exists st. now split.
      * reflexivity.
  - intros message tag timestamp duration exitCode H1 H2.
    destruct (encode_returns cfg message tag timestamp duration exitCode)
      as [q E].
    exists q. split; [exact E|].
    rewrite (sendPing_loop _ _ _ _ _ _ _ _ _ _ E). cbn zeta. cbn [fst snd].
    unfold Ping.tries, Ping.attempts, Ping.naps.
    iteration_facts Hp 1. iteration_facts Hp 2.
    rewrite H1 in Hf. rewrite H2 in Hf0, Hs0. cbn in Hf0.
    assert (Hs1 : Ping.steps
                    (snd (Ping.iteration cfg net endpoint uniqueIdentifier q 1))
                  = [Ping.Attempt
                       (Ping.pingUri (Ping.pingHost (Ping.dev cfg) 1)
                          uniqueIdentifier endpoint 1 q)]).
    { rewrite Hs. now destruct (Ping.reply net 1). }
    rewrite (forEach_continue _ _ _ Hf), (forEach_break _ _ _ Hf0).
    cbn [fst snd]. rewrite !steps_app, Hs1, Hs0.
    repeat split; reflexivity.
Qed.

Lemma C4_witness :
  let net := Sample.script [Ping.TransportError "connection refused";
                            Ping.Response 200 false] in
  let run := Ping.sendPing Sample.cfg net "complete" "d3x0c1" "" "" 0
               None None in
  (forall u, Ping.parses net u = true)
  /\ Spec.failed (Ping.reply net 1) = true
  /\ Ping.reply net 2 = Ping.Response 200 false
  /\ exists q,
       Ping.encode Sample.cfg "" "" 0 None None = Ret q
       /\ let u i := Ping.pingUri (Ping.pingHost (Ping.dev Sample.cfg) i)
                       "d3x0c1" "complete" i q in
          fst run = Ret Ping.Succeeded
          /\ Ping.steps (snd run) = [Ping.Attempt (u 1); Ping.Attempt (u 2)]
          /\ Ping.attempts (snd run) = 2%nat
          /\ Ping.naps (snd run) = 0%nat.
Proof.
  intros net run.
  assert (Hp : forall u, Ping.parses net u = true) by reflexivity.
  split; [exact Hp|]. split; [reflexivity|]. split; [reflexivity|].
  exact (proj2 (C4_success_ends_the_sequence Sample.cfg net "complete"
                  "d3x0c1" Hp)
           "" "" 0%float None None eq_refl eq_refl).
Defined.

(** The run of [C4_witness]: no third request. *)
Example second_attempt_succeeds_trace :
  Ping.sendPing
    {| Ping.dev := false; Ping.verbose := false; Ping.debugLog := "";
       Ping.pingApiKey := ""; Ping.cfgHostname := ""; Ping.osHostname := "" |}
    (Sample.script [Ping.Response 503 false; Ping.Response 200 false])
    "complete" "d3x0c1" "" "" 0 None None
  = (Ret Ping.Succeeded,
     [Ping.EvDo {| Ping.Method := "GET";
                   Ping.URL := "https://cronitor.link/d3x0c1/complete?try=1";
                   Ping.Header := [("User-Agent", "CronitorCLI/1.6.0")] |} 3;
      Ping.EvReadAll; Ping.EvClose;
      Ping.EvDo {| Ping.Method := "GET";
                   Ping.URL := "https://cronitor.link/d3x0c1/complete?try=2";
                   Ping.Header := [("User-Agent", "CronitorCLI/1.6.0")] |} 3;
      Ping.EvReadAll; Ping.EvDone]).
Proof. vm_compute. reflexivity. Qed.

(** C10.  When [http.NewRequest] rejects the URL of the first attempt, its
    error is dropped and [request] is nil: [sendPing] panics on line 164.
    It has written the line that announces the ping and nothing else: no
    request is sent, no error is logged, no later attempt is made. *)
Theorem C10_nil_request_panics (cfg : Ping.Config) (net : Ping.Net)
    (endpoint uniqueIdentifier message tag : string) (timestamp : float)
    (duration : option float) (exitCode : option Z) (q : Ping.Locals) :
  Ping.encode cfg message tag timestamp duration exitCode = Ret q ->
  let uri := Ping.pingUri (Ping.pingHost (Ping.dev cfg) 1)
               uniqueIdentifier endpoint 1 q in
  Ping.parses net uri = false ->
  let run := Ping.sendPing cfg net endpoint uniqueIdentifier message tag
               timestamp duration exitCode in
  run = (Panic "invalid memory address or nil pointer dereference",
         (snd (Ping.log cfg ("Sending ping " ++ uri)) ++ [Ping.EvDone])%list)
  /\ Ping.attempts (snd run) = 0%nat.
Proof.
  intros E uri Hp run. subst run.
  rewrite (sendPing_loop _ _ _ _ _ _ _ _ _ _ E). cbn zeta.
  unfold Ping.tries.
  pose proof (iteration_nil_request cfg net endpoint uniqueIdentifier q 1 Hp)
    as It.
  cbn zeta in It. fold uri in It.
  rewrite (forEach_panic _ _ _ "invalid memory address or nil pointer dereference")
    by (rewrite It; reflexivity).
  rewrite It. cbn [fst snd]. split; [reflexivity|].
  unfold Ping.attempts. rewrite steps_app, log_steps. reflexivity.
Qed.

(** A monitor identifier that ends in a line feed. *)
Lemma C10_witness :
  let uid := "d3x0c1" ++ String (ascii_of_nat 10) "" in
  let net := Sample.strict (Ping.Response 200 false) in
  let run := Ping.sendPing Sample.cfg net "run" uid "" "" 0 None None in
  Ping.parses net
    (Ping.pingUri (Ping.pingHost false 1) uid "run" 1
       {| Ping.formattedStamp := ""; Ping.message := "";
          Ping.pingApiAuthKey := ""; Ping.hostname := "&host=web-1";
          Ping.formattedDuration := ""; Ping.tag := "";
          Ping.formattedStatusCode := "" |}) = false
  /\ fst run = Panic "invalid memory address or nil pointer dereference"
  /\ Ping.attempts (snd run) = 0%nat.
Proof.
  intros uid net run.
  split; [reflexivity|].
  destruct (C10_nil_request_panics Sample.cfg net "run" uid "" "" 0 None None
              _ eq_refl eq_refl) as [R A].
  split; [|exact A].
  fold run in R. now rewrite R.
Defined.

(* ===================================================================== *)
(** * Further properties *)
(* ===================================================================== *)

(** ** Truncation *)

Lemma firstBytes_firstBytes (a b : nat) (s : string) :
  Spec.firstBytes a (Spec.firstBytes b s) = Spec.firstBytes (Nat.min a b) s.
Proof.
  unfold Spec.firstBytes. revert a b.
  induction s as [|c s IH]; intros [|a] [|b]; simpl; try reflexivity.
  now rewrite IH.
Qed.

(** X1.  Truncating twice is truncating once to the smaller limit; in
    particular truncating again to the same limit changes nothing. *)
Theorem truncateString_twice (s : string) (n m : Z) :
  0 <= n -> 0 <= m ->
  exists t, truncateString s n = Ret t
    /\ truncateString t m = truncateString s (Z.min n m)
    /\ truncateString t n = Ret t.
Proof.
  intros Hn Hm. exists (Spec.firstBytes (Z.to_nat n) s).
  rewrite !truncateString_firstBytes by lia.
  rewrite !firstBytes_firstBytes.
  split; [reflexivity|]. split; f_equal; f_equal; lia.
Qed.

Lemma truncateString_twice_witness :
  exists t, truncateString "heartbeat" 5 = Ret t
    /\ truncateString t 3 = truncateString "heartbeat" (Z.min 5 3)
    /\ truncateString t 5 = Ret t.
Proof. apply truncateString_twice; lia. Defined.

(** X2.  A negative limit makes [truncateString] panic on every string,
    the empty one included: no length is at or under it, and the slice
    bound is out of range. *)
Theorem truncateString_negative_limit (s : string) (length : Z) :
  length < 0 ->
  truncateString s length = Panic "slice bounds out of range".
Proof.
  intros H. unfold truncateString, sliceTo.
  destruct (Z.leb_spec (len s) length) as [Hle|_].
  - unfold len in Hle. lia.
  - destruct (Z.ltb_spec length 0) as [_|?]; [reflexivity | lia].
Qed.

Lemma truncateString_negative_limit_witness :
  truncateString "" (-1) = Panic "slice bounds out of range".
Proof. apply truncateString_negative_limit. lia. Defined.

(** ** Escaping *)

Lemma upperhex_alnum (n : N) : (n < 16)%N -> isAlnum (Url.upperhex n) = true.
Proof.
  intros H.
  assert (E : In n [0; 1; 2; 3; 4; 5; 6; 7; 8; 9; 10; 11; 12; 13; 14; 15]%N).
  { simpl. lia. }
  simpl in E.
  repeat (destruct E as [<- | E]; [reflexivity|]). contradiction.
Qed.

Lemma byte_bound (c : ascii) : (byte c < 256)%N.
Proof. apply N_ascii_bounded. Qed.

Lemma alnum_querySafe (c : ascii) : isAlnum c = true -> Obs.querySafe c = true.
Proof. intros H. unfold Obs.querySafe. now rewrite H. Qed.

Lemma QueryEscape_safe (s : string) :
  Obs.allBytes Obs.querySafe (Url.QueryEscape s) = true.
Proof.
  induction s as [|c s IH]; [reflexivity|].
  cbn [Url.QueryEscape].
  destruct (Ascii.eqb c " ").
  - cbn [Obs.allBytes]. now rewrite IH.
  - destruct (Url.shouldEscape c) eqn:E.
    + cbn [Obs.allBytes]. rewrite IH.
      assert (Hlo : Obs.querySafe (Url.upperhex (byte c mod 16)) = true).
      { apply alnum_querySafe, upperhex_alnum, N.mod_lt. discriminate. }
      assert (Hhi : Obs.querySafe (Url.upperhex (byte c / 16)) = true).
      { apply alnum_querySafe, upperhex_alnum.
        pose proof (byte_bound c) as B.
        apply N.Div0.div_lt_upper_bound. exact B. }
      rewrite Hlo, Hhi. reflexivity.
    + cbn [Obs.allBytes]. rewrite IH, andb_true_r.
      unfold Url.shouldEscape in E. apply negb_false_iff in E.
      unfold Obs.querySafe. rewrite E. reflexivity.
Qed.

Lemma querySafe_not_ctl (s : string) :
  Obs.allBytes Obs.querySafe s = true -> Url.stringContainsCTLByte s = false.
Proof.
  induction s as [|c s IH]; [reflexivity|].
  cbn [Obs.allBytes Url.stringContainsCTLByte]. intros H.
  apply andb_prop in H. destruct H as [Hc Hs].
  rewrite (IH Hs), orb_false_r.
  destruct c as [[] [] [] [] [] [] [] []]; try discriminate Hc; reflexivity.
Qed.

Lemma querySafe_not_reserved (s : string) :
  Obs.allBytes Obs.querySafe s = true ->
  Obs.allBytes
    (fun c => negb (Ascii.eqb c "&" || Ascii.eqb c "=" || Ascii.eqb c "#"
                    || Ascii.eqb c "?" || Ascii.eqb c "/" || Ascii.eqb c " "))
    s = true.
Proof.
  induction s as [|c s IH]; [reflexivity|].
  cbn [Obs.allBytes]. intros H.
  apply andb_prop in H. destruct H as [Hc Hs].
  rewrite (IH Hs), andb_true_r.
  destruct c as [[] [] [] [] [] [] [] []]; try discriminate Hc; reflexivity.
Qed.

Lemma allBytes_app (p : ascii -> bool) (a b : string) :
  Obs.allBytes p (a ++ b) = Obs.allBytes p a && Obs.allBytes p b.
Proof.
  induction a as [|c a IH]; [reflexivity|].
  cbn [append Obs.allBytes]. now rewrite IH, andb_assoc.
Qed.

(** X3.  The value of the [msg] parameter, and of the [host] parameter,
    is made of unreserved bytes, [+] and [%XX] escapes only, whatever the
    message and the host name: it holds no [&], [=], [#], [?], [/] or
    space that could add or cut a parameter, and no control byte that
    could make [http.NewRequest] reject the URL. *)
Theorem escaped_fields_are_safe (message hostname : string) :
  message <> "" -> hostname <> "" ->
  exists vm vh,
    Ping.messageOf message = Ret ("&msg=" ++ vm)
    /\ Ping.hostOf hostname = Ret ("&host=" ++ vh)
    /\ Obs.allBytes Obs.querySafe (vm ++ vh) = true
    /\ Obs.allBytes
         (fun c => negb (Ascii.eqb c "&" || Ascii.eqb c "=" || Ascii.eqb c "#"
                         || Ascii.eqb c "?" || Ascii.eqb c "/"
                         || Ascii.eqb c " "))
         (vm ++ vh) = true
    /\ Url.stringContainsCTLByte (vm ++ vh) = false.
Proof.
  intros Hm Hh.
  exists (Url.QueryEscape (Spec.firstBytes 2000 message)),
         (Url.QueryEscape (Spec.firstBytes 50 hostname)).
  split; [now apply messageOf_present|].
  split; [now apply hostOf_present|].
  assert (S : Obs.allBytes Obs.querySafe
                (Url.QueryEscape (Spec.firstBytes 2000 message)
                 ++ Url.QueryEscape (Spec.firstBytes 50 hostname)) = true).
  { now rewrite allBytes_app, !QueryEscape_safe. }
  split; [exact S|].
  split; [now apply querySafe_not_reserved | now apply querySafe_not_ctl].
Qed.

(** A message with a blank, an ampersand, an equals sign and a line feed,
    and a host name with a slash. *)
Lemma escaped_fields_are_safe_witness :
  exists vm vh,
    Ping.messageOf ("exit 1 & retry=no" ++ String (ascii_of_nat 10) "")
    = Ret ("&msg=" ++ vm)
    /\ Ping.hostOf "rack/web 1" = Ret ("&host=" ++ vh)
    /\ Obs.allBytes Obs.querySafe (vm ++ vh) = true
    /\ Obs.allBytes
         (fun c => negb (Ascii.eqb c "&" || Ascii.eqb c "=" || Ascii.eqb c "#"
                         || Ascii.eqb c "?" || Ascii.eqb c "/"
                         || Ascii.eqb c " "))
         (vm ++ vh) = true
    /\ Url.stringContainsCTLByte (vm ++ vh) = false.
Proof. apply escaped_fields_are_safe; discriminate. Defined.

Lemma QueryEscape_length (s : string) :
  (String.length (Url.QueryEscape s) <= 3 * String.length s)%nat.
Proof.
  induction s as [|c s IH]; [simpl; lia|].
  cbn [Url.QueryEscape].
  destruct (Ascii.eqb c " "); [|destruct (Url.shouldEscape c)];
    cbn [String.length]; lia.
Qed.

(** X4.  The three truncated fields are bounded whatever their inputs: the
    [msg] parameter takes at most 6005 bytes of the query (five for
    [&msg=] and three for each of 2000 escaped bytes), the [auth_key]
    parameter at most 60, the [host] parameter at most 156. *)
Theorem truncated_fields_are_bounded (message key hostname : string) :
  exists vm vk vh,
    Ping.messageOf message = Ret vm
    /\ Ping.authKeyOf key = Ret vk
    /\ Ping.hostOf hostname = Ret vh
    /\ len vm <= 6005 /\ len vk <= 60 /\ len vh <= 156.
Proof.
  do 3 eexists.
  split; [apply messageOf_amps|].
  split; [apply authKeyOf_amps|].
  split; [apply hostOf_amps|].
  rewrite !amps_param. unfold len.
  pose proof (firstBytes_length 2000 message) as Lm.
  pose proof (firstBytes_length 50 key) as Lk.
  pose proof (firstBytes_length 50 hostname) as Lh.
  pose proof (QueryEscape_length (Spec.firstBytes 2000 message)) as Em.
  pose proof (QueryEscape_length (Spec.firstBytes 50 hostname)) as Eh.
  destruct (nonEmpty_cases message) as [[_ ->] | [_ ->]];
    destruct (nonEmpty_cases key) as [[_ ->] | [_ ->]];
    destruct (nonEmpty_cases hostname) as [[_ ->] | [_ ->]];
    cbn [append String.length];
    repeat split; lia.
Qed.

(** ** The delivery engine on any network *)


Lemma slept_app (a b : list Ping.Event) :
  Obs.slept (a ++ b) = Obs.slept a + Obs.slept b.
Proof.
  induction a as [|e a IH]; [reflexivity|].
  destruct e; simpl; rewrite ?IH; lia.
Qed.

Lemma attempts_app (a b : list Ping.Event) :
  Ping.attempts (a ++ b) = (Ping.attempts a + Ping.attempts b)%nat.
Proof.
  unfold Ping.attempts. now rewrite steps_app, filter_app, length_app.
Qed.

Lemma naps_app (a b : list Ping.Event) :
  Ping.naps (a ++ b) = (Ping.naps a + Ping.naps b)%nat.
Proof.
  unfold Ping.naps. now rewrite steps_app, filter_app, length_app.
Qed.

(** What one iteration leaves in the trace, on any network: nothing but
    its log line when the request is nil, and otherwise one request, with
    a sleep of two seconds after it exactly when the request ends in a
    transport error and the counter is past 2. *)
Lemma iteration_observed (cfg : Ping.Config) (net : Ping.Net)
    (endpoint uniqueIdentifier : string) (q : Ping.Locals) (i : Z) :
  let uri := Ping.pingUri (Ping.pingHost (Ping.dev cfg) i)
               uniqueIdentifier endpoint i q in
  let it := Ping.iteration cfg net endpoint uniqueIdentifier q i in
  let napping := match Ping.reply net i with
                 | Ping.TransportError _ => 2 <? i
                 | Ping.Response _ _ => false
                 end in
  (Ping.parses net uri = false
   /\ (exists why, fst it = Panic why)
   /\ Obs.requests (snd it) = []
   /\ Ping.attempts (snd it) = 0%nat
   /\ Ping.naps (snd it) = 0%nat
   /\ Obs.slept (snd it) = 0)
  \/ (Ping.parses net uri = true
      /\ fst it = Ret (if Spec.failed (Ping.reply net i)
                       then Ping.Continue else Ping.Break)
      /\ Obs.requests (snd it)
         = [({| Ping.Method := "GET"; Ping.URL := uri;
                Ping.Header := [("User-Agent", Ping.userAgent)] |}, 3)]
      /\ Ping.attempts (snd it) = 1%nat
      /\ Ping.naps (snd it) = (if napping then 1 else 0)%nat
      /\ Obs.slept (snd it) = (if napping then 2 else 0)).
Proof.
  intros uri it napping. subst it napping.
  destruct (Ping.parses net uri) eqn:Hp; [right | left];
    (split; [reflexivity|]);
    unfold Ping.iteration, Ping.log, Ping.NewRequest; fold uri; rewrite Hp;
    clearbody uri; unfold Spec.failed, Ping.attempts, Ping.naps.
  - destruct (0 <? len (Ping.debugLog cfg)), (Ping.verbose cfg),
      (Ping.reply net i) as [err | st [|]];
      try (destruct (2 <? i));
      try (destruct (Z.ltb_spec st 400); destruct (Z.leb_spec 400 st);
           try lia);
      repeat split; reflexivity.
  - destruct (0 <? len (Ping.debugLog cfg)), (Ping.verbose cfg);
      (split; [eexists; reflexivity|]); repeat split; reflexivity.
Qed.

(** The trace of the loop: the trace of its first iteration, followed by
    the trace of the rest when that iteration ends in [continue]. *)
Lemma forEach_cons (body : Z -> M Ping.Event Ping.Ctl) (i : Z)
    (rest : list Z) :
  Ping.forEach (i :: rest) body
  = match fst (body i) with
    | Ret Ping.Continue =>
        (fst (Ping.forEach rest body),
         (snd (body i) ++ snd (Ping.forEach rest body))%list)
    | Ret Ping.Break => (Ret Ping.Succeeded, snd (body i))
    | Panic why => (Panic why, snd (body i))
    end.
Proof.
  destruct (fst (body i)) as [[|]|why] eqn:E.
  - now apply forEach_continue.
  - now apply forEach_break.
  - now apply forEach_panic.
Qed.

Lemma forEach_bounds (cfg : Ping.Config) (net : Ping.Net)
    (endpoint uniqueIdentifier : string) (q : Ping.Locals) (l : list Z) :
  let t := snd (Ping.forEach l
                  (Ping.iteration cfg net endpoint uniqueIdentifier q)) in
  (Ping.attempts t <= List.length l)%nat
  /\ (Ping.naps t <= List.length (filter (fun i => (2 <? i)%Z) l))%nat
  /\ Obs.slept t = 2 * Z.of_nat (Ping.naps t).
Proof.
  induction l as [|i l IH]; [cbn; repeat split; lia|].
  cbn zeta in *. rewrite forEach_cons.
  destruct IH as (IA & IN & IS).
  destruct (iteration_observed cfg net endpoint uniqueIdentifier q i)
    as [(_ & (why & F) & _ & A & N & S) | (_ & F & _ & A & N & S)];
    rewrite F.
  - cbn [snd]. rewrite A, N, S. cbn [List.length].
    repeat split; lia.
  - destruct (Spec.failed (Ping.reply net i)); cbn [snd];
      rewrite ?attempts_app, ?naps_app, ?slept_app, ?A, ?N, ?S;
      cbn [List.length filter];
      destruct (Ping.reply net i); destruct (2 <? i);
      cbn [List.length]; repeat split; lia.
Qed.

Lemma sendPing_bounds (cfg : Ping.Config) (net : Ping.Net)
    (endpoint uniqueIdentifier message tag : string) (timestamp : float)
    (duration : option float) (exitCode : option Z) :
  let t := snd (Ping.sendPing cfg net endpoint uniqueIdentifier message tag
                  timestamp duration exitCode) in
  (Ping.attempts t <= 6)%nat
  /\ (Ping.naps t <= 4)%nat
  /\ Obs.slept t = 2 * Z.of_nat (Ping.naps t).
Proof.
  destruct (encode_returns cfg message tag timestamp duration exitCode)
    as [q E].
  cbn zeta. rewrite (sendPing_loop _ _ _ _ _ _ _ _ _ _ E). cbn [snd].
  destruct (forEach_bounds cfg net endpoint uniqueIdentifier q Ping.tries)
    as (A & N & S).
  cbn zeta in *. rewrite attempts_app, naps_app, slept_app.
  change (Ping.attempts [Ping.EvDone]) with 0%nat.
  change (Ping.naps [Ping.EvDone]) with 0%nat.
  change (Obs.slept [Ping.EvDone]) with 0.
  change (List.length Ping.tries) with 6%nat in A.
  change (List.length (filter (fun i => 2 <? i) Ping.tries)) with 4%nat in N.
  repeat split; lia.
Qed.

(** X5.  Whatever the network does, and whether or not the requests can
    be built, a call of [sendPing] makes at most 6 attempts and sleeps at
    most 4 times, two seconds each time: at most 8 seconds of sleep. *)
Theorem sendPing_is_bounded (cfg : Ping.Config) (net : Ping.Net)
    (endpoint uniqueIdentifier message tag : string) (timestamp : float)
    (duration : option float) (exitCode : option Z) :
  let t := snd (Ping.sendPing cfg net endpoint uniqueIdentifier message tag
                  timestamp duration exitCode) in
  (Ping.attempts t <= 6)%nat
  /\ (Ping.naps t <= 4)%nat
  /\ Obs.slept t = 2 * Z.of_nat (Ping.naps t)
  /\ Obs.slept t <= 8.
Proof.
  destruct (sendPing_bounds cfg net endpoint uniqueIdentifier message tag
              timestamp duration exitCode) as (A & N & S).
  cbn zeta in *. repeat split; try assumption. lia.
Qed.




(** The loop on a list whose first values all end in [continue] with one
    attempt each, up to a value that ends in [break]. *)
Lemma forEach_first_success (body : Z -> M Ping.Event Ping.Ctl)
    (l1 : list Z) (k : Z) (l2 : list Z) :
  (forall j, In j l1 ->
     fst (body j) = Ret Ping.Continue /\ Ping.attempts (snd (body j)) = 1%nat) ->
  fst (body k) = Ret Ping.Break ->
  Ping.attempts (snd (body k)) = 1%nat ->
  fst (Ping.forEach (l1 ++ k :: l2) body) = Ret Ping.Succeeded
  /\ Ping.attempts (snd (Ping.forEach (l1 ++ k :: l2) body))
     = S (List.length l1).
Proof.
  intros H Hk Ak. induction l1 as [|j l1 IH]; cbn [List.app].
  - rewrite forEach_cons, Hk. cbn [fst snd List.length]. now rewrite Ak.
  - destruct (H j (or_introl eq_refl)) as [Fj Aj].
    rewrite forEach_cons, Fj. cbn [fst snd].
    destruct IH as [IF IA]; [intros x Hx; apply H; now right|].
    rewrite attempts_app, Aj, IA. split; [exact IF | reflexivity].
Qed.

Lemma forEach_all_fail (body : Z -> M Ping.Event Ping.Ctl) (l : list Z) :
  (forall j, In j l ->
     fst (body j) = Ret Ping.Continue /\ Ping.attempts (snd (body j)) = 1%nat) ->
  fst (Ping.forEach l body) = Ret Ping.GaveUp
  /\ Ping.attempts (snd (Ping.forEach l body)) = List.length l.
Proof.
  intros H. induction l as [|j l IH]; [split; reflexivity|].
  destruct (H j (or_introl eq_refl)) as [Fj Aj].
  rewrite forEach_cons, Fj. cbn [fst snd].
  destruct IH as [IF IA]; [intros x Hx; apply H; now right|].
  rewrite attempts_app, Aj, IA. split; [exact IF | reflexivity].
Qed.

(** X7.  When every request can be built, the number of attempts is the
    position of the first attempt that is answered with a readable body
    and a status below 400, whatever way the earlier attempts fail; when
    none of the six is, all six are made and the loop gives up. *)
Theorem attempts_until_first_success (cfg : Ping.Config) (net : Ping.Net)
    (endpoint uniqueIdentifier message tag : string) (timestamp : float)
    (duration : option float) (exitCode : option Z) :
  (forall u, Ping.parses net u = true) ->
  let run := Ping.sendPing cfg net endpoint uniqueIdentifier message tag
               timestamp duration exitCode in
  (forall k, 1 <= k <= 6 ->
     (forall j, 1 <= j < k -> Spec.failed (Ping.reply net j) = true) ->
     Spec.failed (Ping.reply net k) = false ->
     fst run = Ret Ping.Succeeded /\ Z.of_nat (Ping.attempts (snd run)) = k)
  /\ ((forall j, 1 <= j <= 6 -> Spec.failed (Ping.reply net j) = true) ->
      fst run = Ret Ping.GaveUp /\ Ping.attempts (snd run) = 6%nat).
Proof.
  intros Hp run. subst run.
  destruct (encode_returns cfg message tag timestamp duration exitCode)
    as [q E].
  rewrite (sendPing_loop _ _ _ _ _ _ _ _ _ _ E). cbn zeta. cbn [fst snd].
  rewrite attempts_app. change (Ping.attempts [Ping.EvDone]) with 0%nat.
  set (body := Ping.iteration cfg net endpoint uniqueIdentifier q).
  assert (B : forall j,
            fst (body j) = Ret (if Spec.failed (Ping.reply net j)
                                then Ping.Continue else Ping.Break)
            /\ Ping.attempts (snd (body j)) = 1%nat).
  { intros j.
    destruct (iteration_observed cfg net endpoint uniqueIdentifier q j)
      as [(P & _) | (_ & F & _ & A & _)].
    - rewrite Hp in P. discriminate P.
    - split; assumption. }
  split.
  - intros k Hk Hfail Hok.
    assert (S : exists l1 l2, Ping.tries = (l1 ++ k :: l2)%list
                  /\ Z.of_nat (S (List.length l1)) = k
                  /\ forall j, In j l1 -> 1 <= j < k).
    { assert (C : k = 1 \/ k = 2 \/ k = 3 \/ k = 4 \/ k = 5 \/ k = 6) by lia.
      unfold Ping.tries.
      destruct C as [-> | [-> | [-> | [-> | [-> | ->]]]]].
      - exists [], [2; 3; 4; 5; 6]. repeat split; simpl in *; lia.
      - exists [1], [3; 4; 5; 6]. repeat split; simpl in *; lia.
      - exists [1; 2], [4; 5; 6]. repeat split; simpl in *; lia.
      - exists [1; 2; 3], [5; 6]. repeat split; simpl in *; lia.
      - exists [1; 2; 3; 4], [6]. repeat split; simpl in *; lia.
      - exists [1; 2; 3; 4; 5], []. repeat split; simpl in *; lia. }
    destruct S as (l1 & l2 & -> & L & In1).
    destruct (forEach_first_success body l1 k l2) as [F A].
    + intros j Hj. destruct (B j) as [Fj Aj].
      rewrite (Hfail j (In1 j Hj)) in Fj. now split.
    + destruct (B k) as [Fk _]. now rewrite Hok in Fk.
    + apply B.
    + rewrite F, A. split; [reflexivity | lia].
  - intros Hfail.
    destruct (forEach_all_fail body Ping.tries) as [F A].
    + intros j Hj. destruct (B j) as [Fj Aj].
      rewrite Hfail in Fj; [now split|].
      unfold Ping.tries in Hj. simpl in Hj. lia.
    + rewrite F, A. split; reflexivity.
Qed.

(** Two rejected attempts, a dropped connection, then a 204. *)
Lemma attempts_until_first_success_witness :
  let net := Sample.script [Ping.Response 500 false; Ping.Response 429 false;
                            Ping.TransportError "EOF";
                            Ping.Response 204 false] in
  let run := Ping.sendPing Sample.cfg net "run" "d3x0c1" "" "" 0 None None in
  (forall u, Ping.parses net u = true)
  /\ (forall j, 1 <= j < 4 -> Spec.failed (Ping.reply net j) = true)
  /\ Spec.failed (Ping.reply net 4) = false
  /\ fst run = Ret Ping.Succeeded
  /\ Z.of_nat (Ping.attempts (snd run)) = 4.
Proof.
  intros net run.
  assert (Hp : forall u, Ping.parses net u = true) by reflexivity.
  assert (Hf : forall j, 1 <= j < 4 -> Spec.failed (Ping.reply net j) = true).
  { intros j Hj. assert (C : j = 1 \/ j = 2 \/ j = 3) by lia.
    destruct C as [-> | [-> | ->]]; reflexivity. }
  split; [exact Hp|]. split; [exact Hf|]. split; [reflexivity|].
  exact (proj1 (attempts_until_first_success Sample.cfg net "run" "d3x0c1"
                  "" "" 0 None None Hp) 4 ltac:(lia) Hf eq_refl).
Defined.

Lemma forEach_no_nap (body : Z -> M Ping.Event Ping.Ctl) (l : list Z) :
  (forall i, In i l -> Ping.naps (snd (body i)) = 0%nat) ->
  Ping.naps (snd (Ping.forEach l body)) = 0%nat.
Proof.
  intros H. induction l as [|i l IH]; [reflexivity|].
  rewrite forEach_cons.
  pose proof (H i (or_introl eq_refl)) as Hi.
  destruct (fst (body i)) as [[|]|why]; cbn [snd]; try exact Hi.
  rewrite naps_app, Hi, IH; [reflexivity|].
  intros j Hj. apply H. now right.
Qed.

(** X8.  No sleep is taken unless [Client.Do] returns a transport error
    on an attempt from the third on: transport errors on the first two
    attempts, and responses of any status on any attempt, are retried at
    once, on any network. *)
Theorem no_sleep_without_late_transport_error (cfg : Ping.Config)
    (net : Ping.Net) (endpoint uniqueIdentifier message tag : string)
    (timestamp : float) (duration : option float) (exitCode : option Z) :
  (forall i, 3 <= i <= 6 ->
     exists st readErr, Ping.reply net i = Ping.Response st readErr) ->
  let t := snd (Ping.sendPing cfg net endpoint uniqueIdentifier message tag
                  timestamp duration exitCode) in
  Ping.naps t = 0%nat /\ Obs.slept t = 0.
Proof.
  intros H t.
  assert (N : Ping.naps t = 0%nat).
  { subst t.
    destruct (encode_returns cfg message tag timestamp duration exitCode)
      as [q E].
    rewrite (sendPing_loop _ _ _ _ _ _ _ _ _ _ E). cbn zeta. cbn [snd].
    rewrite naps_app. change (Ping.naps [Ping.EvDone]) with 0%nat.
    rewrite forEach_no_nap; [reflexivity|].
    intros i Hi.
    destruct (iteration_observed cfg net endpoint uniqueIdentifier q i)
      as [(_ & _ & _ & _ & Nz & _) | (_ & _ & _ & _ & Nz & _)];
      rewrite Nz; [reflexivity|].
    destruct (Z.ltb_spec 2 i) as [Hlt | Hge].
    - destruct (H i) as (st & r & R).
      + unfold Ping.tries in Hi. simpl in Hi. lia.
      + now rewrite R.
    - now destruct (Ping.reply net i). }
  split; [exact N|].
  destruct (sendPing_bounds cfg net endpoint uniqueIdentifier message tag
              timestamp duration exitCode) as (_ & _ & S).
  fold t in S. rewrite S, N. reflexivity.
Qed.

Lemma no_sleep_without_late_transport_error_witness :
  let net := Sample.script [Ping.TransportError "timeout";
                            Ping.TransportError "timeout";
                            Ping.Response 502 false; Ping.Response 502 true;
                            Ping.Response 400 false; Ping.Response 404 false] in
  let t := snd (Ping.sendPing Sample.cfg net "run" "d3x0c1" "" "" 0
                  None None) in
  (forall i, 3 <= i <= 6 ->
     exists st readErr, Ping.reply net i = Ping.Response st readErr)
  /\ Ping.attempts t = 6%nat
  /\ Ping.naps t = 0%nat /\ Obs.slept t = 0.
Proof.
  intros net t.
  assert (H : forall i, 3 <= i <= 6 ->
                exists st readErr, Ping.reply net i = Ping.Response st readErr).
  { intros i Hi. assert (C : i = 3 \/ i = 4 \/ i = 5 \/ i = 6) by lia.
    destruct C as [-> | [-> | [-> | ->]]]; do 2 eexists; reflexivity. }
  split; [exact H|]. split; [reflexivity|].
  exact (no_sleep_without_late_transport_error Sample.cfg net "run" "d3x0c1"
           "" "" 0 None None H).
Defined.

(** ** The timezone resolver on any environment *)

Lemma Split_nonempty (s : string) (sep : ascii) : Split s sep <> [].
Proof.
  destruct s as [|c s]; simpl; [discriminate|].
  destruct (Ascii.eqb c sep); [discriminate|].
  destruct (Split s sep); discriminate.
Qed.

Lemma Split_noSlash (s : string) :
  Obs.noSlash s = true -> Split s "/" = [s].
Proof.
  induction s as [|c s IH]; [reflexivity|].
  unfold Obs.noSlash in *. cbn [Obs.allBytes Split]. unfold Obs.isSlash.
  intros H. apply andb_prop in H. destruct H as [Hc Hs].
  apply negb_true_iff in Hc. rewrite Hc, (IH Hs). reflexivity.
Qed.

Lemma Split_slash (s : string) :
  Obs.noSlash s = false -> (2 <= List.length (Split s "/"))%nat.
Proof.
  induction s as [|c s IH]; [discriminate|].
  unfold Obs.noSlash in *. cbn [Obs.allBytes Split]. unfold Obs.isSlash.
  destruct (Ascii.eqb c "/") eqn:E; cbn [negb andb].
  - intros _. pose proof (Split_nonempty s "/") as N.
    destruct (Split s "/"); [now elim N | simpl; lia].
  - intros H. specialize (IH H).
    destruct (Split s "/"); simpl in *; lia.
Qed.

Lemma Split_app (x y : string) :
  Split (x ++ String "/" y) "/" = (Split x "/" ++ Split y "/")%list.
Proof.
  induction x as [|c x IH]; [reflexivity|].
  cbn [append Split]. rewrite IH.
  destruct (Ascii.eqb c "/"); [reflexivity|].
  pose proof (Split_nonempty x "/") as N.
  destruct (Split x "/"); [now elim N | reflexivity].
Qed.

(** The last step on its own. *)
Lemma fromTimezoneFile_run (env : Tz.Env) :
  Tz.fromTimezoneFile env
  = (Ret match Tz.etcTimezone env with
         | Some locale => locale
         | None => ""
         end,
     [Tz.ReadFile "/etc/timezone"]).
Proof. unfold Tz.fromTimezoneFile. now destruct (Tz.etcTimezone env). Qed.

(** The symlink step and what follows it. *)
Lemma fromLocaltimeLink_run (env : Tz.Env) :
  let symlink := match Tz.readlinkLocaltime env with
                 | Some target => target
                 | None => ""
                 end in
  let file := match Tz.etcTimezone env with
              | Some locale => locale
              | None => ""
              end in
  Tz.fromLocaltimeLink env
  = if Obs.localtimeIsLink env then
      if 0 <? len symlink then
        (match sliceFrom (Split symlink "/")
                 (Z.of_nat (List.length (Split symlink "/")) - 2) with
         | Ret tail => Ret (Join tail "/")
         | Panic why => Panic why
         end,
         [Tz.Lstat "/etc/localtime"; Tz.Readlink "/etc/localtime"])
      else (Ret file,
            [Tz.Lstat "/etc/localtime"; Tz.Readlink "/etc/localtime";
             Tz.ReadFile "/etc/timezone"])
    else (Ret file, [Tz.Lstat "/etc/localtime"; Tz.ReadFile "/etc/timezone"]).
Proof.
  intros symlink file. subst symlink file.
  unfold Tz.fromLocaltimeLink, Obs.localtimeIsLink.
  rewrite fromTimezoneFile_run.
  destruct (Tz.lstatLocaltime env) as [mode|]; [|reflexivity].
  destruct (Z.land mode Tz.ModeSymlink =? Tz.ModeSymlink); [|reflexivity].
  destruct (0 <? len _); [|reflexivity].
  destruct (sliceFrom _ _); reflexivity.
Qed.

(** The resolver when TZ is unset and [timedatectl] yields nothing. *)
Lemma resolver_after_timedatectl (env : Tz.Env) :
  Tz.envTZ env = None -> Obs.timedatectlSilent env = true ->
  Tz.timezoneLocationName env
  = (fst (Tz.fromLocaltimeLink env),
     ([Tz.LookupEnv "TZ"; Tz.Exec "timedatectl"]
      ++ snd (Tz.fromLocaltimeLink env))%list).
Proof.
  intros Hz Hs.
  unfold Tz.timezoneLocationName, Tz.fromTimedatectl, Obs.timedatectlSilent in *.
  rewrite Hz.
  destruct (Tz.timedatectl env) as [output|].
  - destruct (Regexp.FindStringSubmatch _) as [[|whole [|group rest]]|];
      try discriminate Hs;
      destruct (Tz.fromLocaltimeLink env); reflexivity.
  - destruct (Tz.fromLocaltimeLink env); reflexivity.
Qed.

Lemma resolver_with_TZ (env : Tz.Env) (v : string) :
  Tz.envTZ env = Some v ->
  Tz.timezoneLocationName env = (Ret v, [Tz.LookupEnv "TZ"]).
Proof. intros H. unfold Tz.timezoneLocationName. now rewrite H. Qed.

(** X9.  The resolver panics in one situation only: TZ is unset, the
    [timedatectl] step yields nothing, /etc/localtime is a symbolic link,
    and its target is not empty and has no slash.  In every other
    environment it returns a string. *)
Theorem resolver_panics_only_on_one_segment_link (env : Tz.Env) :
  (exists why, fst (Tz.timezoneLocationName env) = Panic why)
  <-> (Tz.envTZ env = None
       /\ Obs.timedatectlSilent env = true
       /\ Obs.localtimeIsLink env = true
       /\ exists target, Tz.readlinkLocaltime env = Some target
            /\ target <> "" /\ Obs.noSlash target = true).
Proof.
  destruct (Tz.envTZ env) as [v|] eqn:Hz.
  { rewrite (resolver_with_TZ env v Hz). split.
    - intros [why H]. discriminate H.
    - intros [H _]. discriminate H. }
  destruct (Obs.timedatectlSilent env) eqn:Hs.
  2:{ split; [|intros (_ & H & _); discriminate H].
      intros [why H]. exfalso. revert H.
      unfold Tz.timezoneLocationName, Tz.fromTimedatectl, Obs.timedatectlSilent in *.
      rewrite Hz.
      destruct (Tz.timedatectl env) as [output|]; [|discriminate Hs].
      destruct (Regexp.FindStringSubmatch _) as [[|whole [|group rest]]|];
        try discriminate Hs.
      discriminate. }
  rewrite (resolver_after_timedatectl env Hz Hs). cbn [fst].
  rewrite fromLocaltimeLink_run.
  destruct (Obs.localtimeIsLink env).
  2:{ split; [intros [why H]; discriminate H
             | intros (_ & _ & H & _); discriminate H]. }
  destruct (Tz.readlinkLocaltime env) as [target|].
  2:{ split; [intros [why H]; discriminate H
             | intros (_ & _ & _ & t & H & _); discriminate H]. }
  destruct target as [|c target].
  { split; [intros [why H]; discriminate H
           | intros (_ & _ & _ & t & H & N & _); injection H as <-; now elim N]. }
  set (t := String c target).
  assert (L : (0 <? len t) = true) by (apply len_pos; discriminate).
  rewrite L. cbn [fst]. unfold sliceFrom.
  destruct (Obs.noSlash t) eqn:Hn.
  - rewrite (Split_noSlash t Hn). split.
    + intros _. split; [reflexivity|]. split; [reflexivity|].
      split; [reflexivity|]. exists t.
      split; [reflexivity|]. split; [discriminate | exact Hn].
    + intros _. eexists. reflexivity.
  - pose proof (Split_slash t Hn) as L2.
    destruct (Z.ltb_spec (Z.of_nat (List.length (Split t "/")) - 2) 0)
      as [B1|_]; [lia|].
    destruct (Z.ltb_spec (Z.of_nat (List.length (Split t "/")))
                (Z.of_nat (List.length (Split t "/")) - 2)) as [B2|_]; [lia|].
    cbn [orb]. split.
    + intros [why H]. discriminate H.
    + intros (_ & _ & _ & t' & H & _ & N). injection H as <-.
      rewrite Hn in N. discriminate N.
Qed.

Lemma resolver_panics_only_on_one_segment_link_witness :
  let env := {| Tz.envTZ := None;
                Tz.timedatectl := Some "Failed to connect to bus";
                Tz.lstatLocaltime := Some (Z.lor Tz.ModeSymlink 511);
                Tz.readlinkLocaltime := Some "Zulu";
                Tz.etcTimezone := None |} in
  exists why, fst (Tz.timezoneLocationName env) = Panic why.
Proof.
  intros env.
  apply (proj2 (resolver_panics_only_on_one_segment_link env)).
  split; [reflexivity|]. split; [reflexivity|]. split; [reflexivity|].
  exists "Zulu". split; [reflexivity|]. split; [discriminate | reflexivity].
Defined.

Lemma skipn_length_app {A} (pre l : list A) :
  skipn (List.length pre) (pre ++ l) = l.
Proof. induction pre as [|x pre IH]; [reflexivity | exact IH]. Qed.

Lemma sliceFrom_last_two {A} (pre : list A) (a b : A) :
  sliceFrom (pre ++ [a; b])
    (Z.of_nat (List.length (pre ++ [a; b])) - 2) = Ret [a; b].
Proof.
  unfold sliceFrom. rewrite length_app. cbn [List.length].
  destruct (Z.ltb_spec (Z.of_nat (List.length pre + 2) - 2) 0) as [B1|_];
    [lia|].
  destruct (Z.ltb_spec (Z.of_nat (List.length pre + 2))
              (Z.of_nat (List.length pre + 2) - 2)) as [B2|_]; [lia|].
  cbn [orb].
  replace (Z.to_nat (Z.of_nat (List.length pre + 2) - 2))
    with (List.length pre) by lia.
  now rewrite skipn_length_app.
Qed.

(** X10.  When the symlink step is reached and the target of
    /etc/localtime has at least two segments, the resolver returns its
    last two segments joined by a slash, whatever precedes them, and does
    not read /etc/timezone: a zone of one or of three segments under the
    zoneinfo directory is therefore not returned as it is named. *)
Theorem resolver_returns_last_two_segments (env : Tz.Env)
    (target a b : string) :
  Tz.envTZ env = None ->
  Obs.timedatectlSilent env = true ->
  Obs.localtimeIsLink env = true ->
  Tz.readlinkLocaltime env = Some target ->
  Obs.noSlash a = true -> Obs.noSlash b = true ->
  target = a ++ "/" ++ b \/ (exists dir, target = dir ++ "/" ++ a ++ "/" ++ b) ->
  Tz.timezoneLocationName env
  = (Ret (a ++ "/" ++ b),
     [Tz.LookupEnv "TZ"; Tz.Exec "timedatectl"; Tz.Lstat "/etc/localtime";
      Tz.Readlink "/etc/localtime"]).
Proof.
  intros Hz Hs Hl Hr Ha Hb Ht.
  rewrite (resolver_after_timedatectl env Hz Hs), fromLocaltimeLink_run.
  rewrite Hl, Hr.
  assert (P : exists pre, Split target "/" = (pre ++ [a; b])%list).
  { destruct Ht as [-> | [dir ->]].
    - exists []. change (a ++ "/" ++ b) with (a ++ String "/" b).
      now rewrite Split_app, (Split_noSlash a Ha), (Split_noSlash b Hb).
    - exists (Split dir "/").
      change (dir ++ "/" ++ a ++ "/" ++ b)
        with (dir ++ String "/" (a ++ String "/" b)).
      now rewrite !Split_app, (Split_noSlash a Ha), (Split_noSlash b Hb). }
  destruct P as [pre P].
  assert (L : (0 <? len target) = true).
  { apply len_pos. intros ->. destruct pre as [|x [|y pre]]; discriminate P. }
  rewrite L, P, sliceFrom_last_two. cbn [fst snd List.app].
  unfold Join. cbn [String.concat]. reflexivity.
Qed.

(** A zone of three segments loses its first. *)
Lemma resolver_returns_last_two_segments_witness :
  Tz.timezoneLocationName
    {| Tz.envTZ := None;
       Tz.timedatectl := None;
       Tz.lstatLocaltime := Some (Z.lor Tz.ModeSymlink 511);
       Tz.readlinkLocaltime :=
         Some "/usr/share/zoneinfo/America/Argentina/Ushuaia";
       Tz.etcTimezone := Some "America/Argentina/Ushuaia" |}
  = (Ret "Argentina/Ushuaia",
     [Tz.LookupEnv "TZ"; Tz.Exec "timedatectl"; Tz.Lstat "/etc/localtime";
      Tz.Readlink "/etc/localtime"]).
Proof.
  apply (resolver_returns_last_two_segments _
           "/usr/share/zoneinfo/America/Argentina/Ushuaia"
           "Argentina" "Ushuaia");
    try reflexivity.
  right. exists "/usr/share/zoneinfo/America". reflexivity.
Defined.


Lemma span_app (p : ascii -> bool) (a b : string) :
  Obs.allBytes p a = true ->
  (b = "" \/ exists c r, b = String c r /\ p c = false) ->
  Regexp.span p (a ++ b) = (a, b).
Proof.
  intros Ha Hb. induction a as [|x a IH].
  - destruct Hb as [-> | (c & r & -> & Hc)]; cbn; [reflexivity|].
    now rewrite Hc.
  - cbn [Obs.allBytes] in Ha. apply andb_prop in Ha. destruct Ha as [Hx Ha].
    cbn [append Regexp.span]. now rewrite Hx, (IH Ha).
Qed.

Lemma span_head (p : ascii -> bool) (c : ascii) (r : string) :
  p c = true ->
  exists line rest, Regexp.span p (String c r) = (String c line, rest).
Proof.
  intros H. cbn [Regexp.span]. rewrite H.
  destruct (Regexp.span p r) as [a b]. now exists a, b.
Qed.

Lemma FindStringSubmatch_here (s : string) (sub : list string) :
  Regexp.matchHere s = Some sub -> Regexp.FindStringSubmatch s = Some sub.
Proof. intros H. destruct s; cbn [Regexp.FindStringSubmatch]; now rewrite H. Qed.

Lemma FindStringSubmatch_skip (pre s : string) :
  Obs.noMatchBefore pre s = true ->
  Regexp.FindStringSubmatch (pre ++ s) = Regexp.FindStringSubmatch s.
Proof.
  induction pre as [|c pre IH]; [reflexivity|].
  cbn [Obs.noMatchBefore]. intros H.
  change (String c pre ++ s) with (String c (pre ++ s)) in *.
  cbn [Regexp.FindStringSubmatch].
  destruct (Regexp.matchHere (String c (pre ++ s))); [discriminate H|].
  now apply IH.
Qed.

Lemma prefix_append (a b : string) : prefix a (a ++ b) = true.
Proof.
  induction a as [|c a IH]; [now destruct b|].
  cbn [append prefix].
  destruct (ascii_dec c c) as [_|ne]; [exact IH | now elim ne].
Qed.

(** The pattern on a label followed by blanks, a word and the rest of the
    text: the group is the word when a blank other than a line feed
    follows it, and the word without its last rune when the word ends its
    line. *)
Lemma matchHere_label (blanks word rest : string) :
  blanks <> "" -> Obs.allBytes Regexp.isSpace blanks = true ->
  word <> "" -> Obs.allBytes (fun c => negb (Regexp.isSpace c)) word = true ->
  (rest = "" \/ exists c r, rest = String c r /\ Regexp.isSpace c = true) ->
  exists whole,
    Regexp.matchHere ("Timezone:" ++ blanks ++ word ++ rest)
    = match rest with
      | String c _ =>
          if Regexp.isNewline c
          then if (String.length (Utf8.dropLastRune word) =? 0)%nat
               then None else Some [whole; Utf8.dropLastRune word]
          else Some [whole; word]
      | EmptyString =>
          if (String.length (Utf8.dropLastRune word) =? 0)%nat
          then None else Some [whole; Utf8.dropLastRune word]
      end.
Proof.
  intros Hb Sb Hw Sw Hr.
  unfold Regexp.matchHere.
  rewrite prefix_append.
  change (Regexp.drop 9 ("Timezone:" ++ blanks ++ word ++ rest))
    with (blanks ++ word ++ rest).
  cbv iota.
  rewrite (span_app Regexp.isSpace blanks (word ++ rest) Sb).
  2:{ right. destruct word as [|c w]; [now elim Hw|].
      exists c, (w ++ rest). split; [reflexivity|].
      cbn [Obs.allBytes] in Sw. apply andb_prop in Sw.
      now apply negb_true_iff. }
  rewrite (span_app (fun c => negb (Regexp.isSpace c)) word rest Sw).
  2:{ destruct Hr as [-> | (c & r & -> & Hc)]; [now left | right].
      exists c, r. split; [reflexivity|]. now rewrite Hc. }
  assert (Lb : (String.length blanks =? 0)%nat = false).
  { destruct blanks; [now elim Hb | reflexivity]. }
  assert (Lw : (String.length word =? 0)%nat = false).
  { destruct word; [now elim Hw | reflexivity]. }
  destruct rest as [|c r].
  - cbn [Regexp.span]. rewrite Lb, Lw. cbn [String.length Nat.ltb Nat.leb].
    eexists. destruct (String.length (Utf8.dropLastRune word) =? 0)%nat;
      rewrite ?append_nil_r; reflexivity.
  - destruct (Regexp.isNewline c) eqn:Nc.
    + cbn [Regexp.span]. rewrite Nc. cbn [negb]. rewrite Lb, Lw.
      cbn [String.length Nat.ltb Nat.leb].
      exists ("Timezone:" ++ blanks ++ word).
      destruct (String.length (Utf8.dropLastRune word) =? 0)%nat; reflexivity.
    + destruct (span_head (fun c => negb (Regexp.isNewline c)) c r)
        as (line & rest' & E); [now rewrite Nc|].
      rewrite E, Lb, Lw. cbn [String.length Nat.ltb Nat.leb].
      eexists. reflexivity.
Qed.

(** X12.  What the resolver takes from the output of [timedatectl], at the
    leftmost place where the pattern of line 228 matches (after Time zone
    has been rewritten to Timezone): the run of non-blank bytes after the
    label, when a blank other than a line feed follows it on the line;
    but that run without its last rune when it ends the line or the
    output, because the pattern asks for at least one more character
    after the group. *)
Theorem resolver_reads_timedatectl (env : Tz.Env)
    (output pre blanks word rest : string) :
  Tz.envTZ env = None ->
  Tz.timedatectl env = Some output ->
  Replace output "Time zone" "Timezone"
  = pre ++ "Timezone:" ++ blanks ++ word ++ rest ->
  Obs.noMatchBefore pre ("Timezone:" ++ blanks ++ word ++ rest) = true ->
  blanks <> "" -> Obs.allBytes Regexp.isSpace blanks = true ->
  word <> "" -> Obs.allBytes (fun c => negb (Regexp.isSpace c)) word = true ->
  ((exists c r, rest = String c r
      /\ Regexp.isSpace c = true /\ Regexp.isNewline c = false) ->
   Tz.timezoneLocationName env
   = (Ret word, [Tz.LookupEnv "TZ"; Tz.Exec "timedatectl"]))
  /\ ((rest = "" \/ exists c r, rest = String c r /\ Regexp.isNewline c = true) ->
      Utf8.dropLastRune word <> "" ->
      Tz.timezoneLocationName env
      = (Ret (Utf8.dropLastRune word),
         [Tz.LookupEnv "TZ"; Tz.Exec "timedatectl"])).
Proof.
  intros Hz Ho Hr Hn Hb Sb Hw Sw.
  assert (Run : forall whole group,
            Regexp.matchHere ("Timezone:" ++ blanks ++ word ++ rest)
            = Some [whole; group] ->
            Tz.timezoneLocationName env
            = (Ret group, [Tz.LookupEnv "TZ"; Tz.Exec "timedatectl"])).
  { intros whole group M.
    unfold Tz.timezoneLocationName, Tz.fromTimedatectl.
    rewrite Hz, Ho, Hr, (FindStringSubmatch_skip _ _ Hn).
    now rewrite (FindStringSubmatch_here _ _ M). }
  split.
  - intros (c & r & -> & Sc & Nc).
    destruct (matchHere_label blanks word (String c r) Hb Sb Hw Sw)
      as [whole M]; [right; now exists c, r|].
    rewrite Nc in M. exact (Run _ _ M).
  - intros Hrest Hd.
    assert (Ld : (String.length (Utf8.dropLastRune word) =? 0)%nat = false).
    { destruct (Utf8.dropLastRune word); [now elim Hd | reflexivity]. }
    destruct Hrest as [-> | (c & r & -> & Nc)].
    + destruct (matchHere_label blanks word "" Hb Sb Hw Sw) as [whole M];
        [now left|].
      rewrite Ld in M. exact (Run _ _ M).
    + destruct (matchHere_label blanks word (String c r) Hb Sb Hw Sw)
        as [whole M].
      { right. exists c, r. split; [reflexivity|].
        unfold Regexp.isNewline in Nc. unfold Regexp.isSpace.
        apply N.eqb_eq in Nc. now rewrite Nc. }
      rewrite Nc, Ld in M. exact (Run _ _ M).
Qed.

(** The output of timedatectl with the zone in brackets after its name,
    and the same line cut after the name. *)
Lemma resolver_reads_timedatectl_witness :
  let nl := String (ascii_of_nat 10) "" in
  let env out := {| Tz.envTZ := None; Tz.timedatectl := Some out;
                    Tz.lstatLocaltime := None; Tz.readlinkLocaltime := None;
                    Tz.etcTimezone := None |} in
  Tz.timezoneLocationName
    (env ("      Local time: Tue 2018-03-06 10:11:12 CET" ++ nl
          ++ "       Time zone: Europe/Paris (CET, +0100)" ++ nl
          ++ " Network time on: yes" ++ nl))
  = (Ret "Europe/Paris", [Tz.LookupEnv "TZ"; Tz.Exec "timedatectl"])
  /\ Tz.timezoneLocationName
       (env ("      Local time: Tue 2018-03-06 10:11:12 CET" ++ nl
             ++ "       Time zone: Europe/Paris" ++ nl
             ++ " Network time on: yes" ++ nl))
     = (Ret "Europe/Pari", [Tz.LookupEnv "TZ"; Tz.Exec "timedatectl"]).
Proof.
  intros nl env. split.
  - apply (proj1 (resolver_reads_timedatectl
                    (env ("      Local time: Tue 2018-03-06 10:11:12 CET" ++ nl
                          ++ "       Time zone: Europe/Paris (CET, +0100)" ++ nl
                          ++ " Network time on: yes" ++ nl))
                    _
                    ("      Local time: Tue 2018-03-06 10:11:12 CET" ++ nl
                     ++ "       ")
                    " " "Europe/Paris"
                    (" (CET, +0100)" ++ nl ++ " Network time on: yes" ++ nl)
                    eq_refl eq_refl eq_refl eq_refl
                    ltac:(discriminate) eq_refl ltac:(discriminate) eq_refl)).
    do 2 eexists. split; [reflexivity|]. split; reflexivity.
  - apply (proj2 (resolver_reads_timedatectl
                    (env ("      Local time: Tue 2018-03-06 10:11:12 CET" ++ nl
                          ++ "       Time zone: Europe/Paris" ++ nl
                          ++ " Network time on: yes" ++ nl))
                    _
                    ("      Local time: Tue 2018-03-06 10:11:12 CET" ++ nl
                     ++ "       ")
                    " " "Europe/Paris"
                    (nl ++ " Network time on: yes" ++ nl)
                    eq_refl eq_refl eq_refl eq_refl
                    ltac:(discriminate) eq_refl ltac:(discriminate) eq_refl)).
    + right. do 2 eexists. split; reflexivity.
    + discriminate.
Defined.

(** ** The provisioning client *)

(** The request [sendApiRequest] sends. *)
Lemma sendApiRequest_built (apiKey : string) (net : Api.Net) (url : string) :
  Api.parses net url = true ->
  let request :=
    {| Ping.Method := "GET"; Ping.URL := url;
       Ping.Header :=
         [("Authorization",
           "Basic " ++ Base64.EncodeToString (apiKey ++ ":" ++ ""));
          ("Content-Type", "application/json");
          ("User-Agent", "CronitorCLI/1.6.0")] |} in
  Api.sendApiRequest apiKey net url
  = match Api.reply net with
    | Api.TransportError err =>
        (Ret (Api.Error err), [Ping.EvDo request 0])
    | Api.Response st body readErr =>
        if st =? 200
        then (Ret match readErr with
                  | Some err => Api.Error err
                  | None => Api.Contents body
                  end,
              [Ping.EvDo request 0; Ping.EvReadAll; Ping.EvClose])
        else (Ret (Api.Error ("Unexpected " ++ itoa st ++ " API response")),
              [Ping.EvDo request 0])
    end.
Proof.
  intros Hp request. subst request.
  unfold Api.sendApiRequest, Api.NewRequest. rewrite Hp.
  destruct (Api.reply net) as [err | st body [err|]];
    try (destruct (st =? 200)); reflexivity.
Qed.

Lemma sendApiRequest_nil (apiKey : string) (net : Api.Net) (url : string) :
  Api.parses net url = false ->
  Api.sendApiRequest apiKey net url
  = (Panic "invalid memory address or nil pointer dereference", []).
Proof.
  intros Hp. unfold Api.sendApiRequest, Api.NewRequest. now rewrite Hp.
Qed.

(** X13.  [sendApiRequest] returns the body of the response, byte for
    byte, exactly when the request can be built, the status is 200 and
    the body is read without error.  Every other outcome is an error or a
    panic: a 201, a 204 or a redirect status is not a success. *)
Theorem sendApiRequest_contents_iff (apiKey : string) (net : Api.Net)
    (url bytes : string) :
  fst (Api.sendApiRequest apiKey net url) = Ret (Api.Contents bytes)
  <-> Api.parses net url = true
      /\ Api.reply net = Api.Response 200 bytes None.
Proof.
  destruct (Api.parses net url) eqn:Hp.
  - rewrite (sendApiRequest_built apiKey net url Hp).
    destruct (Api.reply net) as [err | st body [err|]].
    + split; [discriminate | intros [_ H]; discriminate H].
    + destruct (Z.eqb_spec st 200) as [-> | ne];
        (split; [discriminate | intros [_ H]; discriminate H]).
    + destruct (Z.eqb_spec st 200) as [-> | ne]; cbn [fst]; split.
      * intros H. injection H as ->. now split.
      * intros [_ H]. injection H as ->. reflexivity.
      * discriminate.
      * intros [_ H]. injection H as -> _. now elim ne.
  - rewrite (sendApiRequest_nil apiKey net url Hp).
    split; [discriminate | intros [H _]; discriminate H].
Qed.

Lemma sendApiRequest_contents_iff_witness :
  let net := {| Api.parses := fun u => negb (Url.stringContainsCTLByte u);
                Api.reply := Api.Response 200 "[1,2,3]" None |} in
  fst (Api.sendApiRequest "abc123" net (Api.apiUrl false))
  = Ret (Api.Contents "[1,2,3]").
Proof.
  intros net.
  apply (proj2 (sendApiRequest_contents_iff "abc123" net (Api.apiUrl false)
                  "[1,2,3]")).
  split; reflexivity.
Defined.

(** X14.  On a response whose status is not 200, [sendApiRequest] returns
    the error [Unexpected <status> API response] right after its one
    request, which carries the API key as the user name of a basic
    authorization with an empty password: the body is neither read nor
    closed, since the deferred [Close] is registered after the test. *)
Theorem sendApiRequest_other_status (apiKey : string) (net : Api.Net)
    (url : string) (st : Z) (body : string) (readErr : option string) :
  Api.parses net url = true ->
  Api.reply net = Api.Response st body readErr ->
  st <> 200 ->
  Api.sendApiRequest apiKey net url
  = (Ret (Api.Error ("Unexpected " ++ itoa st ++ " API response")),
     [Ping.EvDo
        {| Ping.Method := "GET"; Ping.URL := url;
           Ping.Header :=
             [("Authorization",
               "Basic " ++ Base64.EncodeToString (apiKey ++ ":"));
              ("Content-Type", "application/json");
              ("User-Agent", "CronitorCLI/1.6.0")] |} 0]).
Proof.
  intros Hp Hr Hs. rewrite (sendApiRequest_built apiKey net url Hp), Hr.
  destruct (Z.eqb_spec st 200) as [E | _]; [now elim Hs|].
  now rewrite append_nil_r.
Qed.

Lemma sendApiRequest_other_status_witness :
  Api.sendApiRequest "abc123"
    {| Api.parses := fun _ => true;
       Api.reply := Api.Response 204 "" None |}
    "https://cronitor.io/v3/monitors"
  = (Ret (Api.Error "Unexpected 204 API response"),
     [Ping.EvDo
        {| Ping.Method := "GET"; Ping.URL := "https://cronitor.io/v3/monitors";
           Ping.Header :=
             [("Authorization", "Basic YWJjMTIzOg==");
              ("Content-Type", "application/json");
              ("User-Agent", "CronitorCLI/1.6.0")] |} 0]).
Proof.
  apply (sendApiRequest_other_status "abc123" _ _ 204 "" None);
    [reflexivity | reflexivity | discriminate].
Defined.

(** X15.  [sendApiRequest] makes at most one request and never sleeps or
    retries; it closes the body exactly when it has received a 200, also
    when reading that body fails; and when [http.NewRequest] rejects the
    URL it panics on line 189 with nothing sent, instead of returning the
    error it has been given. *)
Theorem sendApiRequest_one_shot (apiKey : string) (net : Api.Net)
    (url : string) :
  let run := Api.sendApiRequest apiKey net url in
  (List.length (Obs.requests (snd run)) <= 1)%nat
  /\ Ping.naps (snd run) = 0%nat
  /\ (existsb Obs.isClose (snd run) = true
      <-> Api.parses net url = true
          /\ exists body readErr,
               Api.reply net = Api.Response 200 body readErr)
  /\ (Api.parses net url = false ->
      run = (Panic "invalid memory address or nil pointer dereference", [])).
Proof.
  cbn zeta. destruct (Api.parses net url) eqn:Hp.
  - rewrite (sendApiRequest_built apiKey net url Hp).
    destruct (Api.reply net) as [err | st body readErr].
    + cbn. split; [lia|]. split; [reflexivity|]. split; [|discriminate].
      split; [discriminate|]. intros [_ (b & r & H)]. discriminate H.
    + destruct (Z.eqb_spec st 200) as [-> | ne]; cbn.
      * split; [lia|]. split; [reflexivity|]. split; [|discriminate].
        split; [|reflexivity]. intros _. split; [reflexivity|].
        now exists body, readErr.
      * split; [lia|]. split; [reflexivity|]. split; [|discriminate].
        split; [discriminate|].
        intros [_ (b & r & H)]. injection H as -> _ _. now elim ne.
  - rewrite (sendApiRequest_nil apiKey net url Hp). cbn.
    split; [lia|]. split; [reflexivity|]. split; [|reflexivity].
    split; [discriminate|]. intros [H _]. discriminate H.
Qed.

Lemma sendApiRequest_one_shot_witness :
  let net := {| Api.parses := fun u => negb (Url.stringContainsCTLByte u);
                Api.reply := Api.Response 200 "[]" None |} in
  let url := Api.apiUrl false ++ "?" ++ String (ascii_of_nat 13) "" in
  Api.parses net url = false
  /\ Api.sendApiRequest "abc123" net url
     = (Panic "invalid memory address or nil pointer dereference", []).
Proof.
  intros net url. split; [reflexivity|].
  apply (proj2 (proj2 (proj2 (sendApiRequest_one_shot "abc123" net url)))).
  reflexivity.
Defined.

(** ** Reading a formatted stamp back *)

Lemma allDigits_allBytes (s : string) :
  Obs.allBytes isDigit s = allDigits s.
Proof. induction s as [|c s IH]; [reflexivity | simpl; now rewrite IH]. Qed.

Lemma fracDigits_read (r : N) :
  (r < 1000)%N ->
  exists d, NilEmpty.uint_of_string (Strconv.fracDigits 3 r) = Some d
            /\ N.of_uint d = r.
Proof.
  intros H.
  assert (A : forallb Obs.fracReadsBack (map N.of_nat (seq 0 1000)) = true)
    by (vm_compute; reflexivity).
  rewrite forallb_forall in A.
  assert (I : In r (map N.of_nat (seq 0 1000))).
  { apply in_map_iff. exists (N.to_nat r). split; [lia|].
    apply in_seq. lia. }
  specialize (A r I). unfold Obs.fracReadsBack in A.
  destruct (NilEmpty.uint_of_string (Strconv.fracDigits 3 r)) as [d|];
    [|discriminate A].
  exists d. split; [reflexivity|]. now apply N.eqb_eq.
Qed.

Lemma readFixed3_fmtF (neg : bool) (n : N) :
  Obs.readFixed3 (Strconv.fmtF neg n 3) = Some (neg, n).
Proof.
  unfold Strconv.fmtF.
  change (10 ^ N.of_nat 3)%N with 1000%N.
  destruct (intPart_digits (n / 1000)) as (c & r & E & Hc & Hr).
  assert (Hmod : (n mod 1000 < 1000)%N) by (apply N.mod_lt; discriminate).
  destruct (fracDigits_read (n mod 1000) Hmod) as (df & Ef & Vf).
  assert (Ei : NilZero.uint_of_string (String c r) = Some (N.to_uint (n / 1000))).
  { rewrite <- E. apply NilZero.usu.
    destruct (n / 1000)%N; [discriminate | apply DecimalPos.Unsigned.to_uint_nonnil]. }
  assert (Sp : Regexp.span isDigit
                 (String c r ++ String "." (Strconv.fracDigits 3 (n mod 1000)))
               = (String c r, String "." (Strconv.fracDigits 3 (n mod 1000)))).
  { apply span_app.
    - rewrite allDigits_allBytes. simpl. now rewrite Hc, Hr.
    - right. do 2 eexists. split; reflexivity. }
  assert (Body : forall b,
            Obs.readUnsigned3 b
              (String c r ++ String "." (Strconv.fracDigits 3 (n mod 1000)))
            = Some (b, n)).
  { intros b. unfold Obs.readUnsigned3.
    rewrite Sp, Ei, Ef, fracDigits_length. cbn [Nat.eqb].
    rewrite DecimalN.Unsigned.of_to, Vf. do 2 f_equal.
    pose proof (N.div_mod n 1000). lia. }
  rewrite E. destruct neg.
  - apply Body.
  - change ("" ++ String c r ++ String "." (Strconv.fracDigits 3 (n mod 1000)))
      with (String c (r ++ String "." (Strconv.fracDigits 3 (n mod 1000)))).
    specialize (Body false).
    change (String c r ++ String "." (Strconv.fracDigits 3 (n mod 1000)))
      with (String c (r ++ String "." (Strconv.fracDigits 3 (n mod 1000))))
      in Body.
    rewrite <- Body.
    destruct c as [[] [] [] [] [] [] [] []]; try discriminate Hc; reflexivity.
Qed.

Lemma scaledRound_nearest (m : positive) (e : Z) :
  let n := Strconv.scaledRound m e 3 in
  let up := (2 ^ Z.to_N e)%N in
  let down := (2 ^ Z.to_N (- e))%N in
  (2 * n * down <= 2 * (1000 * Npos m * up) + down)%N
  /\ (2 * (1000 * Npos m * up) <= 2 * n * down + down)%N.
Proof.
  unfold Strconv.scaledRound.
  change (10 ^ N.of_nat 3)%N with 1000%N.
  destruct e as [|p|p]; cbn zeta.
  - change (Z.to_N 0) with 0%N. change (Z.to_N (- 0)) with 0%N.
    change (2 ^ 0)%N with 1%N. lia.
  - change (Z.to_N (- Z.pos p)) with 0%N. change (2 ^ 0)%N with 1%N.
    change (Z.to_N (Z.pos p)) with (Npos p). nia.
  - change (Z.to_N (Z.neg p)) with 0%N. change (2 ^ 0)%N with 1%N.
    change (Z.to_N (- Z.neg p)) with (Npos p).
    set (den := (2 ^ Npos p)%N).
    assert (Hd : (0 < den)%N).
    { unfold den. apply N.neq_0_lt_0, N.pow_nonzero. discriminate. }
    pose proof (N.div_mod (Npos m * 1000) den ltac:(lia)) as DM.
    pose proof (N.mod_lt (Npos m * 1000) den ltac:(lia)) as ML.
    set (q := (Npos m * 1000 / den)%N) in *.
    set (r := ((Npos m * 1000) mod den)%N) in *.
    destruct (N.compare_spec (2 * r) den) as [Heq | Hlt | Hgt];
      [destruct (N.even q)| |]; nia.
Qed.

(** X16.  A finite non-zero stamp or duration is printed within half a
    thousandth of its value: the text reads back as the sign of the value
    and a number [n] of thousandths with [|n/1000 - m * 2^e| <= 1/2000],
    where [m * 2^e] is the absolute value of the binary64. *)
Theorem formatStamp_reads_back (x : float) (s : bool) (m : positive) (e : Z) :
  Prim2SF x = S754_finite s m e ->
  exists n,
    Obs.readFixed3 (formatStamp x) = Some (s, n)
    /\ let up := (2 ^ Z.to_N e)%N in
       let down := (2 ^ Z.to_N (- e))%N in
       (2 * n * down <= 2 * (1000 * Npos m * up) + down)%N
       /\ (2 * (1000 * Npos m * up) <= 2 * n * down + down)%N.
Proof.
  intros H. exists (Strconv.scaledRound m e 3).
  unfold formatStamp, Strconv.FormatFloat_f. rewrite H.
  split; [apply readFixed3_fmtF | apply scaledRound_nearest].
Qed.

Lemma formatStamp_reads_back_witness :
  exists n,
    Obs.readFixed3 (formatStamp (-0.0625)) = Some (true, n)
    /\ (2 * n * 2 ^ 56 <= 2 * (1000 * 4503599627370496 * 2 ^ 0) + 2 ^ 56)%N
    /\ (2 * (1000 * 4503599627370496 * 2 ^ 0) <= 2 * n * 2 ^ 56 + 2 ^ 56)%N.
Proof.
  exact (formatStamp_reads_back (-0.0625) true 4503599627370496 (-56) eq_refl).
Defined.

(** ** What the delivery engine logs *)

Lemma printed_app (a b : list Ping.Event) :
  Obs.printed (a ++ b) = (Obs.printed a ++ Obs.printed b)%list.
Proof.
  induction a as [|e a IH]; [reflexivity|].
  destruct e; simpl; now rewrite ?IH.
Qed.

Lemma attempted_app (a b : list Ping.Event) :
  Obs.attempted (a ++ b) = (Obs.attempted a ++ Obs.attempted b)%list.
Proof.
  induction a as [|e a IH]; [reflexivity|].
  destruct e; simpl; now rewrite ?IH.
Qed.

(** A property of traces that holds of the empty trace and of the traces
    of the iterations, and that concatenation keeps, holds of the trace
    of the loop. *)
Lemma forEach_trace_ind (P : list Ping.Event -> Prop)
    (body : Z -> M Ping.Event Ping.Ctl) (l : list Z) :
  P [] ->
  (forall a b, P a -> P b -> P (a ++ b)%list) ->
  (forall i, In i l -> P (snd (body i))) ->
  P (snd (Ping.forEach l body)).
Proof.
  intros P0 Papp Hb. induction l as [|i l IH]; [exact P0|].
  rewrite forEach_cons.
  pose proof (Hb i (or_introl eq_refl)) as Hi.
  destruct (fst (body i)) as [[|]|why]; cbn [snd]; try exact Hi.
  apply Papp; [exact Hi|]. apply IH. intros j Hj. apply Hb. now right.
Qed.

Lemma iteration_printed (cfg : Ping.Config) (net : Ping.Net)
    (endpoint uniqueIdentifier : string) (q : Ping.Locals) (i : Z)
    (st : Z) (readErr : bool) :
  let uri := Ping.pingUri (Ping.pingHost (Ping.dev cfg) i)
               uniqueIdentifier endpoint i q in
  let it := Ping.iteration cfg net endpoint uniqueIdentifier q i in
  Ping.verbose cfg = true ->
  Ping.parses net uri = true ->
  Ping.reply net i = Ping.Response st readErr ->
  Obs.printed (snd it) = ["Sending ping " ++ uri]
  /\ Obs.attempted (snd it) = [uri].
Proof.
  intros uri it Hv Hp Hr. subst it.
  unfold Ping.iteration, Ping.log, Ping.NewRequest. fold uri.
  rewrite Hv, Hp, Hr. clearbody uri.
  destruct (0 <? len (Ping.debugLog cfg)), (negb readErr && (st <? 400));
    split; reflexivity.
Qed.

(** X17.  In verbose mode, when every request can be built and no attempt
    ends in a transport error, the lines [sendPing] prints are the
    announcements of its attempts and nothing else: a failing status, an
    unreadable body, a delivered ping, and giving up after the sixth
    attempt leave no line in the log. *)
Theorem only_attempts_are_announced (cfg : Ping.Config) (net : Ping.Net)
    (endpoint uniqueIdentifier message tag : string) (timestamp : float)
    (duration : option float) (exitCode : option Z) :
  Ping.verbose cfg = true ->
  (forall u, Ping.parses net u = true) ->
  (forall i, 1 <= i <= 6 ->
     exists st readErr, Ping.reply net i = Ping.Response st readErr) ->
  let t := snd (Ping.sendPing cfg net endpoint uniqueIdentifier message tag
                  timestamp duration exitCode) in
  Obs.printed t = map (fun u => "Sending ping " ++ u) (Obs.attempted t).
Proof.
  intros Hv Hp Hr t. subst t.
  destruct (encode_returns cfg message tag timestamp duration exitCode)
    as [q E].
  rewrite (sendPing_loop _ _ _ _ _ _ _ _ _ _ E). cbn zeta. cbn [snd].
  rewrite printed_app, attempted_app, map_app.
  change (Obs.printed [Ping.EvDone]) with (@nil string).
  change (Obs.attempted [Ping.EvDone]) with (@nil string).
  cbn [map]. f_equal.
  apply (forEach_trace_ind
           (fun t => Obs.printed t
                     = map (fun u => "Sending ping " ++ u) (Obs.attempted t))).
  - reflexivity.
  - intros a b Ha Hb. now rewrite printed_app, attempted_app, map_app, Ha, Hb.
  - intros i Hi.
    destruct (Hr i) as (st & r & R).
    { unfold Ping.tries in Hi. simpl in Hi. lia. }
    destruct (iteration_printed cfg net endpoint uniqueIdentifier q i st r
                Hv (Hp _) R) as [Pr At].
    now rewrite Pr, At.
Qed.

(** Six answers 503: six announcements, and no word of the failure. *)
Lemma only_attempts_are_announced_witness :
  let net := Sample.always (Ping.Response 503 false) in
  let t := snd (Ping.sendPing Sample.cfg net "run" "d3x0c1" "" "" 0
                  None None) in
  Ping.verbose Sample.cfg = true
  /\ List.length (Obs.attempted t) = 6%nat
  /\ Obs.printed t = map (fun u => "Sending ping " ++ u) (Obs.attempted t).
Proof.
  intros net t. split; [reflexivity|]. split; [reflexivity|].
  apply (only_attempts_are_announced Sample.cfg net "run" "d3x0c1" "" "" 0
           None None eq_refl).
  - reflexivity.
  - intros i _. do 2 eexists. reflexivity.
Defined.
